(** * GKE node-pool observability: a shallow embedding

    Embedding of [gke_node_pool_observability.py].  The script polls the
    cluster-management API for the clusters and node pools of a list of
    projects, counts the live instances behind every node pool, derives
    a utilisation record and pushes three gauges per node pool to the
    telemetry endpoint.  Every function of the script is decorated with
    tenacity's [retry].

    Modelling choices.
    - The remote services are oracles over an abstract cloud state
      [Env]; every SDK call is logged in a chronological trace, next to
      the sleeps of the retry decorator and the lines printed.
    - A Python exception is a value of [exn]; a computation returns
      [Ok v] or [Raise e] together with the next world.
    - Python's [float] is idealised as an exact rational ([Q]); binary64
      rounding is outside the model.  The [int]/[float] distinction of
      the results is kept.
    - Of the libraries the script calls, the model keeps what the
      script depends on: the loop of the retry decorator, the status
      check of a response, and the key check of the metrics client's
      constructor. *)

From Stdlib Require Import List String Ascii ZArith QArith Bool Lia.
Import ListNotations.

Open Scope string_scope.
Open Scope Z_scope.

(** ** Exceptions and results *)

(** The exceptions that can travel through the script.  [ApiError]
    stands for whatever a client SDK raises (an [Exception] subclass),
    [RetryError] is tenacity's wrapper around the outcome of the last
    attempt, and [KeyboardInterrupt] stands for the [BaseException]s
    that are not [Exception]s. *)
Inductive exn : Type :=
| ApiError (msg : string)
| IndexError
| HTTPError (status : Z)
| ZeroDivisionError
| ValueError
| RetryError (last_attempt : exn)
| KeyboardInterrupt.

(** [isinstance(e, Exception)]. *)
Definition isinstance_Exception (e : exn) : bool :=
  match e with
  | KeyboardInterrupt => false
  | _ => true
  end.

Inductive result (A : Type) : Type :=
| Ok (v : A)
| Raise (e : exn).
Arguments Ok {A} v.
Arguments Raise {A} e.

(** ** Python numbers *)

Inductive number : Type :=
| PyInt (z : Z)
| PyFloat (q : Q).

Definition number_value (n : number) : Q :=
  match n with
  | PyInt z => inject_Z z
  | PyFloat q => q
  end.

(** ** Messages of the remote APIs *)

Record Cluster : Type := { cluster_name : string }.

Record NodePool : Type := {
  name : string;
  instance_group_urls : list string;
  autoscaling_max_node_count : Z
}.

Record GaugeMetric : Type := {
  metric_name : string;
  metric_value : number;
  metric_tags : list (string * string)
}.

Record Response : Type := { status : Z }.

Record NodePoolInfo : Type := {
  current_node_count : Z;
  max_node_count : Z;
  node_usage_percent : number
}.

(** ** Observable events *)

Inductive call : Type :=
| ListClusters (parent : string)
| ListNodePools (parent : string)
| GetNodePool (path : string)
| ListInstances (project zone instance_group : string)
| SendBatch (api_key : option string) (metrics : list GaugeMetric).

Inductive message : Type :=
| MsgNoProjectIds
| MsgProject (project_id : string)
| MsgCluster (cluster : string)
| MsgNodePool (node_pool : string) (info : NodePoolInfo)
| MsgSent.

Inductive event : Type :=
| Sleep (seconds : Z)
| Remote (c : call)
| Print (m : message).

(** The client SDKs, as oracles over the cloud state.  [items] of an
    instance listing may be absent ([None]). *)
Record Clients (Env : Type) : Type := {
  list_clusters : string -> Env -> result (list Cluster) * Env;
  list_node_pools : string -> Env -> result (list NodePool) * Env;
  get_node_pool : string -> Env -> result NodePool * Env;
  list_instances :
    string -> string -> string -> Env -> result (option (list string)) * Env;
  send_batch :
    option string -> list GaugeMetric -> Env -> result Response * Env
}.
Arguments list_clusters {Env}.
Arguments list_node_pools {Env}.
Arguments get_node_pool {Env}.
Arguments list_instances {Env}.
Arguments send_batch {Env}.

(** ** The world and the monad of the script *)

Record World (Env : Type) : Type := mkWorld {
  cloud : Env;
  trace : list event
}.
Arguments mkWorld {Env}.
Arguments cloud {Env}.
Arguments trace {Env}.

Definition M (Env A : Type) : Type := World Env -> result A * World Env.

Definition ret {Env A} (v : A) : M Env A := fun w => (Ok v, w).

Definition raise {Env A} (e : exn) : M Env A := fun w => (Raise e, w).

Definition bind {Env A B} (m : M Env A) (k : A -> M Env B) : M Env B :=
  fun w =>
    match m w with
    | (Ok v, w') => k v w'
    | (Raise e, w') => (Raise e, w')
    end.

Declare Scope py_scope.
Delimit Scope py_scope with py.
Notation "x <- m ;; k" := (bind m (fun x => k))
  (at level 100, m at next level, right associativity) : py_scope.
Notation "m ;;; k" := (bind m (fun _ => k))
  (at level 100, right associativity) : py_scope.
Open Scope py_scope.

Definition log {Env} (ev : event) (w : World Env) : World Env :=
  mkWorld (cloud w) (trace w ++ [ev]).

Definition emit {Env} (ev : event) : M Env unit := fun w => (Ok tt, log ev w).

Definition print {Env} (m : message) : M Env unit := emit (Print m).

(** [time.sleep]: only the trace records it. *)
Definition sleep {Env} (seconds : Z) (w : World Env) : World Env :=
  log (Sleep seconds) w.

(** A call on a client SDK: logged, then answered by the oracle. *)
Definition remote {Env A} (c : call) (oracle : Env -> result A * Env)
  : M Env A :=
  fun w =>
    let (r, env') := oracle (cloud w) in
    (r, mkWorld env' (trace w ++ [Remote c])).

(** [for x in xs: body(x)]. *)
Fixpoint for_each {Env X} (xs : list X) (body : X -> M Env unit)
  : M Env unit :=
  match xs with
  | [] => ret tt
  | x :: rest => body x ;;; for_each rest body
  end.

(** ** The retry decorator *)

Definition RETRY_ATTEMPTS : nat := 5.
Definition RETRY_WAIT : Z := 2.

(** tenacity's [Retrying.__call__] for
    [retry(stop=stop_after_attempt(RETRY_ATTEMPTS),
           wait=wait_fixed(RETRY_WAIT),
           retry=retry_if_exception_type(Exception))]
    with the default [reraise=False].  An attempt that returns ends the
    loop with its value.  An attempt that raises something which is not
    an [Exception] re-raises it.  Otherwise, when the attempt number has
    reached the ceiling the loop raises [RetryError] around the last
    outcome, and else it sleeps and tries again.  [attempts_left] is
    [RETRY_ATTEMPTS - attempt_number]; the number returned beside the
    outcome is tenacity's [statistics["attempt_number"]]. *)
Fixpoint retry_loop {Env A} (attempts_left attempt_number : nat)
  (fn : M Env A) (w : World Env) : (result A * World Env) * nat :=
  match fn w with
  | (Ok v, w') => ((Ok v, w'), attempt_number)
  | (Raise e, w') =>
      if isinstance_Exception e then
        match attempts_left with
        | O => ((Raise (RetryError e), w'), attempt_number)
        | S n =>
            retry_loop n (S attempt_number) fn (sleep RETRY_WAIT w')
        end
      else ((Raise e, w'), attempt_number)
  end.

Definition retry_statistics {Env A} (fn : M Env A) (w : World Env)
  : (result A * World Env) * nat :=
  retry_loop (RETRY_ATTEMPTS - 1) 1 fn w.

Definition retry {Env A} (fn : M Env A) : M Env A :=
  fun w => fst (retry_statistics fn w).

(** [fails_times fn k w w']: starting in [w], [k] consecutive attempts
    of [fn] raise an [Exception]; the decorator sleeps after each of
    them and the next attempt would start in [w']. *)
Inductive fails_times {Env A} (fn : M Env A)
  : nat -> World Env -> World Env -> Prop :=
| fails_none w : fails_times fn O w w
| fails_more k w e w1 w2 :
    fn w = (Raise e, w1) ->
    isinstance_Exception e = true ->
    fails_times fn k (sleep RETRY_WAIT w1) w2 ->
    fails_times fn (S k) w w2.

(** The sleeps recorded in a trace. *)
Fixpoint sleeps (t : list event) : list Z :=
  match t with
  | [] => []
  | Sleep s :: rest => s :: sleeps rest
  | _ :: rest => sleeps rest
  end.

(** An operation that never sleeps on its own. *)
Definition never_sleeps {Env A} (fn : M Env A) : Prop :=
  forall w, sleeps (trace (snd (fn w))) = sleeps (trace w).

(** ** Strings, lists and dicts as the script uses them *)

(** [s.split(sep)] for a one-character separator: one segment more
    than there are separators, empty segments kept. *)
Fixpoint split_from (sep : ascii) (current s : string) : list string :=
  match s with
  | EmptyString => [current]
  | String c rest =>
      if Ascii.eqb c sep then current :: split_from sep EmptyString rest
      else split_from sep (current ++ String c EmptyString) rest
  end.

Definition split (sep : ascii) (s : string) : list string :=
  split_from sep EmptyString s.

(** [parts[i]] for a non-negative literal index. *)
Definition index {Env} (parts : list string) (i : nat) : M Env string :=
  match nth_error parts i with
  | Some x => ret x
  | None => raise IndexError
  end.

(** A [dict] with string keys, in insertion order.  [d[k] = v] replaces
    the value of a key that is present, where it stands, and appends a
    new key at the end. *)
Definition dict (V : Type) : Type := list (string * V).

Fixpoint dict_set {V} (k : string) (v : V) (d : dict V) : dict V :=
  match d with
  | [] => [(k, v)]
  | (k', v') :: rest =>
      if String.eqb k' k then (k', v) :: rest
      else (k', v') :: dict_set k v rest
  end.

Definition keys {V} (d : dict V) : list string := map fst d.

Fixpoint dict_get {V} (k : string) (d : dict V) : option V :=
  match d with
  | [] => None
  | (k', v) :: rest => if String.eqb k' k then Some v else dict_get k rest
  end.

(** [a / b] on [int]s. *)
Definition truediv {Env} (a b : Z) : M Env Q :=
  if b =? 0 then raise ZeroDivisionError
  else ret (inject_Z a / inject_Z b)%Q.

(** [response.raise_for_status()] of the telemetry SDK: a status
    outside 200..299 raises. *)
Definition ok (r : Response) : bool :=
  (200 <=? status r) && (status r <? 300).

Definition raise_for_status {Env} (r : Response) : M Env unit :=
  if ok r then ret tt else raise (HTTPError (status r)).

(** [MetricClient(license_key)] of the telemetry SDK: the constructor
    makes no call; it rejects a key that is missing or empty with
    [ValueError] and otherwise gives the client, which is known here by
    its key. *)
Definition MetricClient {Env} (license_key : option string)
  : M Env (option string) :=
  match license_key with
  | Some (String _ _) => ret license_key
  | _ => raise ValueError
  end.

(** [len(response) if response else 0]. *)
Definition len_or_zero (response : option (list string)) : Z :=
  match response with
  | Some ((_ :: _) as items) => Z.of_nat (List.length items)
  | _ => 0
  end.

(** ** The script *)

Section Script.

Context {Env : Type}.
Variable sdk : Clients Env.
(** [os.environ] *)
Variable environ : string -> option string.

Local Abbreviation Py := (M Env).

Definition getenv (key : string) : option string := environ key.

Definition getenv_default (key default : string) : string :=
  match environ key with
  | Some v => v
  | None => default
  end.

(** The loop of [get_all_clusters_and_node_pools]. *)
Fixpoint node_pools_of_clusters (project_id region : string)
  (clusters : list Cluster) (cluster_node_pools : dict (list string))
  : Py (dict (list string)) :=
  match clusters with
  | [] => ret cluster_node_pools
  | cluster :: rest =>
      let parent := "projects/" ++ project_id ++ "/locations/" ++ region
                    ++ "/clusters/" ++ cluster_name cluster in
      node_pools <- remote (ListNodePools parent) (list_node_pools sdk parent) ;;
      node_pools_of_clusters project_id region rest
        (dict_set (cluster_name cluster) (map name node_pools)
           cluster_node_pools)
  end.

Definition get_all_clusters_and_node_pools_body (project_id region : string)
  : Py (dict (list string)) :=
  let parent := "projects/" ++ project_id ++ "/locations/" ++ region in
  clusters <- remote (ListClusters parent) (list_clusters sdk parent) ;;
  node_pools_of_clusters project_id region clusters [].

Definition get_all_clusters_and_node_pools (project_id region : string)
  : Py (dict (list string)) :=
  retry (get_all_clusters_and_node_pools_body project_id region).

Definition get_instance_group_node_count_body (instance_group_url : string)
  : Py Z :=
  let parts := split "/" instance_group_url in
  project <- index parts 6 ;;
  zone <- index parts 8 ;;
  instance_group <- index parts 10 ;;
  response <- remote (ListInstances project zone instance_group)
                (list_instances sdk project zone instance_group) ;;
  ret (len_or_zero response).

Definition get_instance_group_node_count (instance_group_url : string)
  : Py Z :=
  retry (get_instance_group_node_count_body instance_group_url).

(** [sum(get_instance_group_node_count(url) for url in urls)]: the
    generator is consumed left to right, starting from 0. *)
Fixpoint sum_node_counts (urls : list string) (total : Z) : Py Z :=
  match urls with
  | [] => ret total
  | url :: rest =>
      n <- get_instance_group_node_count url ;;
      sum_node_counts rest (total + n)
  end.

(** [(current / max) * 100 if max else 0] *)
Definition usage_percent (current_node_count max_node_count : Z)
  : Py number :=
  if negb (max_node_count =? 0) then
    q <- truediv current_node_count max_node_count ;;
    ret (PyFloat (q * inject_Z 100)%Q)
  else ret (PyInt 0).

Definition get_node_pool_info_body
  (project_id region cluster node_pool_name : string) : Py NodePoolInfo :=
  let node_pool_path :=
    "projects/" ++ project_id ++ "/locations/" ++ region ++ "/clusters/"
    ++ cluster ++ "/nodePools/" ++ node_pool_name in
  node_pool <- remote (GetNodePool node_pool_path)
                 (get_node_pool sdk node_pool_path) ;;
  current <- sum_node_counts (instance_group_urls node_pool) 0 ;;
  let maximum := autoscaling_max_node_count node_pool in
  usage <- usage_percent current maximum ;;
  ret {| current_node_count := current;
         max_node_count := maximum;
         node_usage_percent := usage |}.

Definition get_node_pool_info
  (project_id region cluster node_pool_name : string) : Py NodePoolInfo :=
  retry (get_node_pool_info_body project_id region cluster node_pool_name).

Definition make_tags (project_id region cluster node_pool_name : string)
  : list (string * string) :=
  [("project_id", project_id); ("region", region);
   ("cluster_name", cluster); ("node_pool_name", node_pool_name)].

Definition make_metrics (tags : list (string * string))
  (node_pool_info : NodePoolInfo) : list GaugeMetric :=
  [ {| metric_name := "gke.node_pool.current_node_count";
       metric_value := PyInt (current_node_count node_pool_info);
       metric_tags := tags |};
    {| metric_name := "gke.node_pool.max_node_count";
       metric_value := PyInt (max_node_count node_pool_info);
       metric_tags := tags |};
    {| metric_name := "gke.node_pool.node_usage_percent";
       metric_value := node_usage_percent node_pool_info;
       metric_tags := tags |} ].

Definition send_metrics_to_newrelic_body (metrics_client : option string)
  (project_id region cluster node_pool_name : string)
  (node_pool_info : NodePoolInfo) : Py unit :=
  let tags := make_tags project_id region cluster node_pool_name in
  let metrics := make_metrics tags node_pool_info in
  response <- remote (SendBatch metrics_client metrics)
                (send_batch sdk metrics_client metrics) ;;
  raise_for_status response ;;;
  print MsgSent.

Definition send_metrics_to_newrelic (metrics_client : option string)
  (project_id region cluster node_pool_name : string)
  (node_pool_info : NodePoolInfo) : Py unit :=
  retry (send_metrics_to_newrelic_body metrics_client project_id region
           cluster node_pool_name node_pool_info).

(** The innermost statement block of the traversal. *)
Definition visit_node_pool (metrics_client : option string)
  (project_id region cluster node_pool_name : string) : Py unit :=
  node_pool_info <- get_node_pool_info project_id region cluster
                      node_pool_name ;;
  print (MsgNodePool node_pool_name node_pool_info) ;;;
  send_metrics_to_newrelic metrics_client project_id region cluster
    node_pool_name node_pool_info.

Definition visit_cluster (metrics_client : option string)
  (project_id region : string) (item : string * list string) : Py unit :=
  let (cluster, node_pools) := item in
  print (MsgCluster cluster) ;;;
  for_each node_pools
    (visit_node_pool metrics_client project_id region cluster).

Definition visit_project (metrics_client : option string) (region : string)
  (project_id : string) : Py unit :=
  print (MsgProject project_id) ;;;
  clusters_and_pools <- get_all_clusters_and_node_pools project_id region ;;
  for_each clusters_and_pools (visit_cluster metrics_client project_id region).

Definition list_clusters_and_node_pools_info_and_send_metrics_body
  (project_ids : list string) (region : string) : Py unit :=
  metrics_client <- MetricClient (getenv "NEW_RELIC_API_KEY") ;;
  for_each project_ids (visit_project metrics_client region).

Definition list_clusters_and_node_pools_info_and_send_metrics
  (project_ids : list string) (region : string) : Py unit :=
  retry (list_clusters_and_node_pools_info_and_send_metrics_body
           project_ids region).

(** The [__main__] block. *)
Definition main : Py unit :=
  let PROJECT_IDS_STR := getenv_default "GCP_PROJECT_IDS" "" in
  let REGION := getenv_default "GCP_REGION" "us-central1" in
  let PROJECT_IDS :=
    match PROJECT_IDS_STR with
    | EmptyString => []
    | _ => split "," PROJECT_IDS_STR
    end in
  match PROJECT_IDS with
  | [] => print MsgNoProjectIds
  | _ => list_clusters_and_node_pools_info_and_send_metrics PROJECT_IDS REGION
  end.

End Script.

(** ** Observations used to state the properties *)

(** The spec's utilisation formula:
    [percent(current, max) = max > 0 ? current / max * 100 : 0]. *)
Definition percent (current maximum : Z) : Q :=
  if 0 <? maximum then (inject_Z current / inject_Z maximum * inject_Z 100)%Q
  else 0%Q.

(** The per-instance-group counts of a node pool, one decorated call
    per locator, left to right. *)
Fixpoint node_counts {Env} (sdk : Clients Env) (urls : list string)
  : M Env (list Z) :=
  match urls with
  | [] => ret []
  | url :: rest =>
      n <- get_instance_group_node_count sdk url ;;
      ns <- node_counts sdk rest ;;
      ret (n :: ns)
  end.

Definition total (ns : list Z) : Z := fold_right Z.add 0 ns.

(** The node-pool listings of a sequence of clusters, one call per
    cluster, in the order of the sequence. *)
Fixpoint node_pool_listings {Env} (sdk : Clients Env)
  (project_id region : string) (clusters : list Cluster)
  : M Env (list (list NodePool)) :=
  match clusters with
  | [] => ret []
  | cluster :: rest =>
      let parent := "projects/" ++ project_id ++ "/locations/" ++ region
                    ++ "/clusters/" ++ cluster_name cluster in
      l <- remote (ListNodePools parent) (list_node_pools sdk parent) ;;
      ls <- node_pool_listings sdk project_id region rest ;;
      ret (l :: ls)
  end.

Definition mem (k : string) (l : list string) : bool :=
  existsb (String.eqb k) l.

(** The distinct elements of a list, each at its first occurrence. *)
Definition first_occurrences (l : list string) : list string :=
  fold_left (fun seen k => if mem k seen then seen else (seen ++ [k])%list) l [].

(** One step of the loop of the discovery on the dictionary. *)
Definition record_listing (d : dict (list string))
  (cl : Cluster * list NodePool) : dict (list string) :=
  dict_set (cluster_name (fst cl)) (map name (snd cl)) d.

(** A loop over [xs] stops in its item [x]: the items before it
    complete, and [x] raises [e] leaving the world [w2]. *)
Definition aborts_at {Env X} (body : X -> M Env unit) (xs : list X)
  (w : World Env) (e : exn) (w2 : World Env) : Prop :=
  exists before x after w1,
    xs = (before ++ x :: after)%list /\
    for_each before body w = (Ok tt, w1) /\
    body x w1 = (Raise e, w2).

(** The batches handed to the ingestion endpoint, in order. *)
Fixpoint emissions (t : list event) : list (list GaugeMetric) :=
  match t with
  | [] => []
  | Remote (SendBatch _ metrics) :: rest => metrics :: emissions rest
  | _ :: rest => emissions rest
  end.

(** The SDK calls of a trace, in order. *)
Fixpoint remote_calls (t : list event) : list call :=
  match t with
  | [] => []
  | Remote c :: rest => c :: remote_calls rest
  | _ :: rest => remote_calls rest
  end.

(** ** A scripted cloud for concrete runs *)

Module Fake.

(** Tables of what the services hold, and per resource the exceptions
    its next calls will raise before it answers again. *)
Record Cloud : Type := mkCloud {
  cluster_lists : dict (list Cluster);
  node_pool_lists : dict (list NodePool);
  node_pools : dict NodePool;
  groups : dict (option (list string));
  ingest_status : Z;
  outages : dict (list exn)
}.

Definition with_outages (o : dict (list exn)) (c : Cloud) : Cloud :=
  mkCloud (cluster_lists c) (node_pool_lists c) (node_pools c) (groups c)
    (ingest_status c) o.

Definition with_ingest_status (s : Z) (c : Cloud) : Cloud :=
  mkCloud (cluster_lists c) (node_pool_lists c) (node_pools c) (groups c)
    s (outages c).

Definition serve {A} (key : string) (answer : option A) (c : Cloud)
  : result A * Cloud :=
  match dict_get key (outages c) with
  | Some (e :: later) => (Raise e, with_outages (dict_set key later (outages c)) c)
  | _ =>
      match answer with
      | Some v => (Ok v, c)
      | None => (Raise (ApiError "not found"), c)
      end
  end.

Definition sdk : Clients Cloud := {|
  list_clusters parent c := serve parent (dict_get parent (cluster_lists c)) c;
  list_node_pools parent c :=
    serve parent (dict_get parent (node_pool_lists c)) c;
  get_node_pool path c := serve path (dict_get path (node_pools c)) c;
  list_instances project zone group c :=
    serve group (dict_get group (groups c)) c;
  send_batch key metrics c :=
    serve "ingest" (Some {| status := ingest_status c |}) c
|}.

Definition group_url (group : string) : string :=
  "https://www.googleapis.com/compute/v1/projects/p1/zones/us-central1-a/instanceGroupManagers/"
  ++ group.

Definition np1 : NodePool :=
  {| name := "np1";
     instance_group_urls := [group_url "g1"; group_url "g2"];
     autoscaling_max_node_count := 10 |}.

Definition np2 : NodePool :=
  {| name := "np2";
     instance_group_urls := [];
     autoscaling_max_node_count := 4 |}.

(** Project p1: cluster c1 with node pool np1 (groups of 3 and 4
    instances, ceiling 10) and the empty node pool np2. *)
Definition p1 (o : dict (list exn)) : Cloud := {|
  cluster_lists :=
    [("projects/p1/locations/us-central1", [ {| cluster_name := "c1" |} ])];
  node_pool_lists :=
    [("projects/p1/locations/us-central1/clusters/c1", [np1; np2])];
  node_pools :=
    [("projects/p1/locations/us-central1/clusters/c1/nodePools/np1", np1);
     ("projects/p1/locations/us-central1/clusters/c1/nodePools/np2", np2)];
  groups := [("g1", Some ["i1"; "i2"; "i3"]);
             ("g2", Some ["i4"; "i5"; "i6"; "i7"]);
             ("g3", None); ("g4", Some [])];
  ingest_status := 202;
  outages := o
|}.

Definition start (c : Cloud) : World Cloud := mkWorld c [].

Definition unavailable : exn := ApiError "unavailable".

Definition np2_path : string :=
  "projects/p1/locations/us-central1/clusters/c1/nodePools/np2".

Definition environ (key : string) : option string :=
  if String.eqb key "GCP_PROJECT_IDS" then Some "p1"
  else if String.eqb key "NEW_RELIC_API_KEY" then Some "key"
  else None.

Definition no_environ (key : string) : option string := None.

End Fake.

(** ** Further observations *)

(** An operation that fails in every world, with the same exception,
    leaving the cloud as it is and adding the same events. *)
Definition always_fails {Env A} (fn : M Env A) (e : exn) (evs : list event)
  : Prop :=
  forall w, fn w = (Raise e, mkWorld (cloud w) (trace w ++ evs)%list).

(** The events of a decorated call whose five attempts each add [evs]:
    the attempts, with one sleep between two of them. *)
Definition retry_events (evs : list event) : list event :=
  (evs ++ List.concat (repeat (Sleep RETRY_WAIT :: evs) (RETRY_ATTEMPTS - 1)))%list.

(** [sep.join(parts)] *)
Fixpoint join (sep : ascii) (parts : list string) : string :=
  match parts with
  | [] => EmptyString
  | [p] => p
  | p :: rest => p ++ String sep (join sep rest)
  end.

(** The number of occurrences of a character in a string. *)
Fixpoint occurrences (c : ascii) (s : string) : nat :=
  match s with
  | EmptyString => O
  | String c' rest =>
      if Ascii.eqb c' c then S (occurrences c rest) else occurrences c rest
  end.

(** The locator of an instance group as the cluster API gives it. *)
Definition instance_group_url (project zone group : string) : string :=
  "https://www.googleapis.com/compute/v1/projects/" ++ project ++ "/zones/"
  ++ zone ++ "/instanceGroupManagers/" ++ group.

(** The record of a node pool agrees with its own counts. *)
Definition consistent (info : NodePoolInfo) : Prop :=
  node_usage_percent info =
  if max_node_count info =? 0 then PyInt 0
  else PyFloat (inject_Z (current_node_count info)
                / inject_Z (max_node_count info) * inject_Z 100)%Q.

(** A cloud without state: every service answers every call the same
    way. *)
Module Steady.

Definition sdk (pool : NodePool) (ingest_status : Z) : Clients unit := {|
  list_clusters parent e := (Ok [ {| cluster_name := "c" |} ], e);
  list_node_pools parent e := (Ok [pool], e);
  get_node_pool path e := (Ok pool, e);
  list_instances project zone group e := (Ok (Some ["i1"; "i2"]), e);
  send_batch key metrics e := (Ok {| status := ingest_status |}, e)
|}.

Definition pool : NodePool :=
  {| name := "np";
     instance_group_urls := [instance_group_url "p" "z" "g"];
     autoscaling_max_node_count := 5 |}.

Definition broken_pool : NodePool :=
  {| name := "np";
     instance_group_urls := ["zones/z/instanceGroupManagers/g"];
     autoscaling_max_node_count := 5 |}.

(** The same cloud with the instance listing out of service. *)
Definition listing_down (pool : NodePool) : Clients unit := {|
  list_clusters parent e := (Ok [ {| cluster_name := "c" |} ], e);
  list_node_pools parent e := (Ok [pool], e);
  get_node_pool path e := (Ok pool, e);
  list_instances project zone group e := (Raise (ApiError "backend error"), e);
  send_batch key metrics e := (Ok {| status := 202 |}, e)
|}.

Definition start : World unit := mkWorld tt [].

End Steady.

(** A computation that, in every world, returns [v], hands [batches]
    to the endpoint and does not sleep. *)
Definition succeeds_with {Env A} (m : M Env A) (v : A)
  (batches : list (list GaugeMetric)) : Prop :=
  forall w, exists w',
    m w = (Ok v, w') /\
    emissions (trace w') = (emissions (trace w) ++ batches)%list /\
    sleeps (trace w') = sleeps (trace w).

(** What a run sends when the services answer every call, from the
    answers: the clusters and node pools of a location, the node pool
    at a path and the items of an instance group. *)
Section Expected.

Variable clusters_of : string -> list Cluster.
Variable pools_of : string -> list NodePool.
Variable pool_at : string -> NodePool.
Variable items_of : string -> string -> string -> option (list string).

Definition expected_count (url : string) : Z :=
  let parts := split "/" url in
  len_or_zero (items_of (nth 6 parts "") (nth 8 parts "") (nth 10 parts "")).

Definition expected_info (project_id region cluster node_pool_name : string)
  : NodePoolInfo :=
  let pool := pool_at ("projects/" ++ project_id ++ "/locations/" ++ region
                       ++ "/clusters/" ++ cluster ++ "/nodePools/"
                       ++ node_pool_name) in
  let current := total (map expected_count (instance_group_urls pool)) in
  let maximum := autoscaling_max_node_count pool in
  {| current_node_count := current;
     max_node_count := maximum;
     node_usage_percent :=
       if maximum =? 0 then PyInt 0
       else PyFloat (inject_Z current / inject_Z maximum * inject_Z 100)%Q |}.

Definition expected_listing (project_id region : string) (cluster : Cluster)
  : Cluster * list NodePool :=
  (cluster,
   pools_of ("projects/" ++ project_id ++ "/locations/" ++ region
             ++ "/clusters/" ++ cluster_name cluster)).

Definition expected_mapping (project_id region : string)
  : dict (list string) :=
  fold_left record_listing
    (map (expected_listing project_id region)
       (clusters_of ("projects/" ++ project_id ++ "/locations/" ++ region)))
    [].

Definition expected_batch (project_id region cluster node_pool_name : string)
  : list GaugeMetric :=
  make_metrics (make_tags project_id region cluster node_pool_name)
    (expected_info project_id region cluster node_pool_name).

Definition expected_batches (project_ids : list string) (region : string)
  : list (list GaugeMetric) :=
  flat_map
    (fun project_id =>
       flat_map
         (fun item : string * list string =>
            map (expected_batch project_id region (fst item)) (snd item))
         (expected_mapping project_id region))
    project_ids.

End Expected.

(** A batch as the script builds it: the three gauges of a record
    that agrees with its own counts. *)
Definition sound_batch (batch : list GaugeMetric) : Prop :=
  exists project_id region cluster node_pool_name info,
    batch = make_metrics (make_tags project_id region cluster node_pool_name)
              info /\
    consistent info.

Definition sound_trace (t : list event) : Prop :=
  Forall sound_batch (emissions t).

(** A computation that only ever sends sound batches, and whose
    value, when it returns, satisfies [Q]. *)
Definition keeps {Env A} (m : M Env A) (Q : A -> Prop) : Prop :=
  forall w,
    sound_trace (trace w) ->
    sound_trace (trace (snd (m w))) /\
    (forall v, fst (m w) = Ok v -> Q v).

(** The number of events of a trace that satisfy [p]. *)
Definition count_events (p : event -> bool) (t : list event) : nat :=
  List.length (filter p t).

(** An operation that leaves exactly one event that satisfies [p] in
    the trace each time it is invoked, whatever it returns or raises;
    the sleeps of the decorator do not satisfy [p]. *)
Definition marks_each_invocation {Env A} (p : event -> bool) (fn : M Env A)
  : Prop :=
  p (Sleep RETRY_WAIT) = false /\
  forall w, count_events p (trace (snd (fn w))) = S (count_events p (trace w)).

Definition is_listing (ev : event) : bool :=
  match ev with
  | Remote (ListInstances _ _ _) => true
  | _ => false
  end.

(** A cloud that returns the cluster name c1 twice, around c2, and a
    different node pool at each node-pool listing; its state is the
    number of listings answered. *)
Module Twice.

Definition pool_named (n : string) : NodePool :=
  {| name := n; instance_group_urls := []; autoscaling_max_node_count := 3 |}.

Definition clusters : list Cluster :=
  [ {| cluster_name := "c1" |}; {| cluster_name := "c2" |};
    {| cluster_name := "c1" |} ].

Definition listings : list (list NodePool) :=
  [ [pool_named "first"]; [pool_named "second"];
    [pool_named "third"; pool_named "fourth"] ].

Definition sdk : Clients nat := {|
  list_clusters parent n := (Ok clusters, n);
  list_node_pools parent n := (Ok (nth n listings []), S n);
  get_node_pool path n := (Ok (pool_named "np"), n);
  list_instances project zone group n := (Ok None, n);
  send_batch key metrics n := (Ok {| status := 202 |}, n)
|}.

Definition start : World nat := mkWorld O [].

End Twice.

(** * Properties *)

Open Scope list_scope.

(** ** The monad and the loops *)

Lemma bind_ok {Env A B} (m : M Env A) (k : A -> M Env B) w v w' :
  m w = (Ok v, w') -> bind m k w = k v w'.
Proof. unfold bind; intros ->; reflexivity. Qed.

Lemma bind_raise {Env A B} (m : M Env A) (k : A -> M Env B) w e w' :
  m w = (Raise e, w') -> bind m k w = (Raise e, w').
Proof. unfold bind; intros ->; reflexivity. Qed.

Lemma bind_inv_ok {Env A B} (m : M Env A) (k : A -> M Env B) w b w2 :
  bind m k w = (Ok b, w2) ->
  exists a w1, m w = (Ok a, w1) /\ k a w1 = (Ok b, w2).
Proof.
  unfold bind; destruct (m w) as [[a|e] w1]; intros H.
  - exists a, w1; auto.
  - discriminate.
Qed.

Lemma remote_ok {Env A} (c : call) (oracle : Env -> result A * Env) w r env' :
  oracle (cloud w) = (r, env') ->
  remote c oracle w = (r, mkWorld env' (trace w ++ [Remote c])).
Proof. unfold remote; intros ->; reflexivity. Qed.

Lemma for_each_app {Env X} (body : X -> M Env unit) xs ys w w1 :
  for_each xs body w = (Ok tt, w1) ->
  for_each (xs ++ ys) body w = for_each ys body w1.
Proof.
  revert w; induction xs as [|x xs IH]; simpl; intros w H.
  - inversion H; reflexivity.
  - unfold bind in *. destruct (body x w) as [[[]|e] w0]; [auto|discriminate].
Qed.

(** A loop ends in the world in which one of its items raised. *)
Lemma for_each_aborts {Env X} (body : X -> M Env unit) xs w e w2 :
  aborts_at body xs w e w2 -> for_each xs body w = (Raise e, w2).
Proof.
  intros (before & x & after & w1 & -> & Hb & Hx).
  rewrite (for_each_app _ _ _ _ _ Hb). simpl.
  apply bind_raise, Hx.
Qed.

(** And a loop raises only in that way. *)
Lemma for_each_raise_inv {Env X} (body : X -> M Env unit) xs w e w2 :
  for_each xs body w = (Raise e, w2) -> aborts_at body xs w e w2.
Proof.
  revert w; induction xs as [|x xs IH]; simpl; intros w H.
  - discriminate.
  - unfold bind in H. destruct (body x w) as [[[]|e'] w0] eqn:Hx.
    + destruct (IH _ H) as (before & y & after & w1 & -> & Hb & Hy).
      exists (x :: before), y, after, w1. repeat split; auto.
      simpl. unfold bind. rewrite Hx. exact Hb.
    + inversion H; subst. exists [], x, xs, w. repeat split; auto.
Qed.

(** ** The retry decorator *)

Lemma retry_loop_ok {Env A} (fn : M Env A) n a w v w' :
  fn w = (Ok v, w') -> retry_loop n a fn w = ((Ok v, w'), a).
Proof. destruct n; simpl; intros ->; reflexivity. Qed.

Lemma retry_loop_exhausted {Env A} (fn : M Env A) a w e w' :
  fn w = (Raise e, w') -> isinstance_Exception e = true ->
  retry_loop 0 a fn w = ((Raise (RetryError e), w'), a).
Proof. simpl; intros -> ->; reflexivity. Qed.

Lemma retry_loop_not_retried {Env A} (fn : M Env A) n a w e w' :
  fn w = (Raise e, w') -> isinstance_Exception e = false ->
  retry_loop n a fn w = ((Raise e, w'), a).
Proof. destruct n; simpl; intros -> ->; reflexivity. Qed.

Lemma retry_loop_step {Env A} (fn : M Env A) n a w e w' :
  fn w = (Raise e, w') -> isinstance_Exception e = true ->
  retry_loop (S n) a fn w = retry_loop n (S a) fn (sleep RETRY_WAIT w').
Proof. simpl; intros -> ->; reflexivity. Qed.

Lemma retry_loop_fails {Env A} (fn : M Env A) k w wk :
  fails_times fn k w wk ->
  forall n a, retry_loop (k + n) a fn w = retry_loop n (a + k) fn wk.
Proof.
  induction 1 as [w|k w e w1 w2 Hfn He _ IH]; intros n a.
  - simpl. now rewrite Nat.add_0_r.
  - change (S k + n)%nat with (S (k + n)).
    rewrite (retry_loop_step _ _ _ _ _ _ Hfn He), IH.
    f_equal. lia.
Qed.

Lemma retry_ok {Env A} (fn : M Env A) w v w' :
  fn w = (Ok v, w') -> retry fn w = (Ok v, w').
Proof.
  intros H. unfold retry, retry_statistics.
  now rewrite (retry_loop_ok _ _ _ _ _ _ H).
Qed.

Lemma retry_first_failure {Env A} (fn : M Env A) w e w' :
  fn w = (Raise e, w') -> isinstance_Exception e = true ->
  retry_statistics fn w = retry_loop 3 2 fn (sleep RETRY_WAIT w').
Proof. intros H He. exact (retry_loop_step _ _ _ _ _ _ H He). Qed.

Lemma retry_statistics_returns {Env A} (fn : M Env A) k w wk v w' :
  (k < RETRY_ATTEMPTS)%nat -> fails_times fn k w wk -> fn wk = (Ok v, w') ->
  retry_statistics fn w = ((Ok v, w'), S k).
Proof.
  unfold retry_statistics, RETRY_ATTEMPTS. intros Hk Hf Hok.
  replace (5 - 1)%nat with (k + (4 - k))%nat by lia.
  now rewrite (retry_loop_fails _ _ _ _ Hf), (retry_loop_ok _ _ _ _ _ _ Hok).
Qed.

Lemma retry_statistics_exhausted {Env A} (fn : M Env A) w w4 e wf :
  fails_times fn 4 w w4 -> fn w4 = (Raise e, wf) ->
  isinstance_Exception e = true ->
  retry_statistics fn w = ((Raise (RetryError e), wf), 5%nat).
Proof.
  unfold retry_statistics, RETRY_ATTEMPTS. intros Hf Hfn He.
  change (5 - 1)%nat with (4 + 0)%nat.
  now rewrite (retry_loop_fails _ _ _ _ Hf),
    (retry_loop_exhausted _ _ _ _ _ Hfn He).
Qed.

Lemma retry_statistics_not_retried {Env A} (fn : M Env A) k w wk e w' :
  (k < RETRY_ATTEMPTS)%nat -> fails_times fn k w wk ->
  fn wk = (Raise e, w') -> isinstance_Exception e = false ->
  retry_statistics fn w = ((Raise e, w'), S k).
Proof.
  unfold retry_statistics, RETRY_ATTEMPTS. intros Hk Hf Hfn He.
  replace (5 - 1)%nat with (k + (4 - k))%nat by lia.
  now rewrite (retry_loop_fails _ _ _ _ Hf),
    (retry_loop_not_retried _ _ _ _ _ _ Hfn He).
Qed.

Lemma sleeps_app t1 t2 : sleeps (t1 ++ t2) = sleeps t1 ++ sleeps t2.
Proof.
  induction t1 as [|[s|c|m] t1 IH]; simpl; auto. now rewrite IH.
Qed.

Lemma fails_times_sleeps {Env A} (fn : M Env A) k w wk :
  never_sleeps fn -> fails_times fn k w wk ->
  sleeps (trace wk) = sleeps (trace w) ++ repeat RETRY_WAIT k.
Proof.
  intros Hq. induction 1 as [w|k w e w1 w2 Hfn He _ IH].
  - simpl. now rewrite app_nil_r.
  - rewrite IH. simpl trace. rewrite sleeps_app, <- app_assoc. simpl.
    specialize (Hq w). rewrite Hfn in Hq. simpl in Hq. now rewrite Hq.
Qed.

(** C1 (as the code has it): an operation that raises [Exception]s on
    its first [k < 5] invocations and then returns is invoked exactly
    [k + 1] times by the decorated call, which returns its value, with
    one sleep of 2 after each failure.  An operation that raises an
    [Exception] on each of 5 invocations is invoked exactly 5 times,
    with 4 sleeps of 2 in between, and the decorated call then raises
    [RetryError] around the last failure.  A failure that is not an
    [Exception] is not retried and propagates as it is. *)
Theorem retry_policy {Env A} (fn : M Env A) (w : World Env) :
  (forall k wk v w',
      (k < RETRY_ATTEMPTS)%nat ->
      fails_times fn k w wk ->
      fn wk = (Ok v, w') ->
      retry fn w = (Ok v, w') /\
      snd (retry_statistics fn w) = S k /\
      (never_sleeps fn ->
       sleeps (trace w') = sleeps (trace w) ++ repeat 2 k)) /\
  (forall w4 e wf,
      fails_times fn 4 w w4 ->
      fn w4 = (Raise e, wf) ->
      isinstance_Exception e = true ->
      retry fn w = (Raise (RetryError e), wf) /\
      snd (retry_statistics fn w) = 5%nat /\
      (never_sleeps fn ->
       sleeps (trace wf) = sleeps (trace w) ++ [2; 2; 2; 2])) /\
  (forall k wk e w',
      (k < RETRY_ATTEMPTS)%nat ->
      fails_times fn k w wk ->
      fn wk = (Raise e, w') ->
      isinstance_Exception e = false ->
      retry fn w = (Raise e, w') /\
      snd (retry_statistics fn w) = S k).
Proof.
  unfold retry. split; [|split].
  - intros k wk v w' Hk Hf Hok.
    rewrite (retry_statistics_returns fn k w wk v w' Hk Hf Hok).
    repeat split.
    intros Hq. pose proof (Hq wk) as Hs. rewrite Hok in Hs. simpl in Hs.
    rewrite Hs. exact (fails_times_sleeps _ _ _ _ Hq Hf).
  - intros w4 e wf Hf Hfn He.
    rewrite (retry_statistics_exhausted fn w w4 e wf Hf Hfn He).
    repeat split.
    intros Hq. pose proof (Hq w4) as Hs. rewrite Hfn in Hs. simpl in Hs.
    rewrite Hs. exact (fails_times_sleeps _ _ _ _ Hq Hf).
  - intros k wk e w' Hk Hf Hfn He.
    rewrite (retry_statistics_not_retried fn k w wk e w' Hk Hf Hfn He).
    split; reflexivity.
Qed.

Lemma index_trace {Env} parts i (w : World Env) :
  snd (index parts i w) = w.
Proof. unfold index. destruct (nth_error parts i); reflexivity. Qed.

Lemma get_instance_group_node_count_body_never_sleeps {Env}
  (sdk : Clients Env) url :
  never_sleeps (get_instance_group_node_count_body sdk url).
Proof.
  intros w. unfold get_instance_group_node_count_body, bind, index, ret, raise.
  destruct (nth_error _ 6) as [project|]; [|reflexivity].
  destruct (nth_error _ 8) as [zone|]; [|reflexivity].
  destruct (nth_error _ 10) as [group|]; [|reflexivity].
  unfold remote.
  destruct (list_instances sdk project zone group (cloud w)) as [[v|e] env'];
    cbn [snd trace]; rewrite sleeps_app; apply app_nil_r.
Qed.

Lemma retry_policy_witness :
  (let fn := get_instance_group_node_count_body Fake.sdk (Fake.group_url "g1") in
   let w := Fake.start
              (Fake.p1 [("g1", [Fake.unavailable; Fake.unavailable])]) in
   exists w',
     retry fn w = (Ok 3, w') /\ snd (retry_statistics fn w) = 3%nat /\
     sleeps (trace w') = [2; 2]) /\
  (let fn := get_instance_group_node_count_body Fake.sdk (Fake.group_url "g9") in
   let w := Fake.start (Fake.p1 []) in
   exists wf,
     retry fn w = (Raise (RetryError (ApiError "not found")), wf) /\
     snd (retry_statistics fn w) = 5%nat /\
     sleeps (trace wf) = [2; 2; 2; 2]) /\
  (let fn := get_instance_group_node_count_body Fake.sdk (Fake.group_url "g1") in
   let w := Fake.start
              (Fake.p1 [("g1", [Fake.unavailable; KeyboardInterrupt])]) in
   exists w',
     retry fn w = (Raise KeyboardInterrupt, w') /\
     snd (retry_statistics fn w) = 2%nat).
Proof.
  split; [|split]; intros fn w.
  - eexists.
    eassert (H : fails_times fn 2 w _).
    { eapply fails_more; [reflexivity|reflexivity|].
      eapply fails_more; [reflexivity|reflexivity|]. apply fails_none. }
    destruct (proj1 (retry_policy fn w) 2%nat _ 3 _ ltac:(unfold RETRY_ATTEMPTS; lia) H
                eq_refl) as (H1 & H2 & H3).
    split; [exact H1|]. split; [exact H2|].
    exact (H3 (get_instance_group_node_count_body_never_sleeps _ _)).
  - eexists.
    eassert (H : fails_times fn 4 w _).
    { do 4 (eapply fails_more; [reflexivity|reflexivity|]). apply fails_none. }
    destruct (proj1 (proj2 (retry_policy fn w)) _ (ApiError "not found") _ H
                eq_refl eq_refl) as (H1 & H2 & H3).
    split; [exact H1|]. split; [exact H2|].
    exact (H3 (get_instance_group_node_count_body_never_sleeps _ _)).
  - eexists.
    eassert (H : fails_times fn 1 w _).
    { eapply fails_more; [reflexivity|reflexivity|]. apply fails_none. }
    exact (proj2 (proj2 (retry_policy fn w)) 1%nat _ KeyboardInterrupt _
             ltac:(unfold RETRY_ATTEMPTS; lia) H eq_refl eq_refl).
Defined.

(** C1 (as stated) fails: the instance group g9 does not exist, so all
    five attempts raise the same [ApiError]; the decorated call does not
    raise that error but a [RetryError] that holds it.  And an attempt
    that raises [KeyboardInterrupt] is not retried, although the next
    attempt would return. *)
Lemma retry_does_not_reraise :
  (let fn := get_instance_group_node_count_body Fake.sdk (Fake.group_url "g9") in
   let w := Fake.start (Fake.p1 []) in
   exists w4 wf,
     fails_times fn 4 w w4 /\
     fn w4 = (Raise (ApiError "not found"), wf) /\
     get_instance_group_node_count Fake.sdk (Fake.group_url "g9") w
       = (Raise (RetryError (ApiError "not found")), wf) /\
     get_instance_group_node_count Fake.sdk (Fake.group_url "g9") w
       <> (Raise (ApiError "not found"), wf)) /\
  (let fn := get_instance_group_node_count_body Fake.sdk (Fake.group_url "g1") in
   let w := Fake.start (Fake.p1 [("g1", [KeyboardInterrupt])]) in
   exists w1 w2,
     fn w = (Raise KeyboardInterrupt, w1) /\
     fn (sleep RETRY_WAIT w1) = (Ok 3, w2) /\
     get_instance_group_node_count Fake.sdk (Fake.group_url "g1") w
       = (Raise KeyboardInterrupt, w1) /\
     snd (retry_statistics fn w) = 1%nat).
Proof.
  split; intros fn w.
  - do 2 eexists. split; [|split; [|split]].
    + do 4 (eapply fails_more; [reflexivity|reflexivity|]). apply fails_none.
    + reflexivity.
    + reflexivity.
    + discriminate.
  - do 2 eexists. repeat split; reflexivity.
Qed.

(** ** Utilisation *)

Lemma usage_percent_ok {Env} (current maximum : Z) (w : World Env) :
  usage_percent current maximum w =
  (Ok (if maximum =? 0 then PyInt 0
       else PyFloat (inject_Z current / inject_Z maximum * inject_Z 100)%Q),
   w).
Proof.
  unfold usage_percent, truediv, bind, ret.
  destruct (maximum =? 0); reflexivity.
Qed.

(** C3: for non-negative counts the utilisation is
    [current / max * 100] when [max > 0] and the integer 0 when
    [max = 0]; the computation never raises, so there is no division
    by zero; its value is the one of the spec's [percent]. *)
Theorem usage_percent_formula {Env} (current maximum : Z) (w : World Env) :
  0 <= current -> 0 <= maximum ->
  exists usage,
    usage_percent current maximum w = (Ok usage, w) /\
    (0 < maximum ->
     usage = PyFloat (inject_Z current / inject_Z maximum * inject_Z 100)%Q) /\
    (maximum = 0 -> usage = PyInt 0) /\
    (number_value usage == percent current maximum)%Q.
Proof.
  intros _ Hm. rewrite usage_percent_ok. eexists. split; [reflexivity|].
  unfold percent.
  destruct (Z.eqb_spec maximum 0) as [->|Hne].
  - split; [lia|]. split; reflexivity.
  - assert (Hlt : (0 <? maximum) = true) by (apply Z.ltb_lt; lia).
    rewrite Hlt. split; [reflexivity|]. split; [lia|reflexivity].
Qed.

Lemma usage_percent_formula_witness :
  exists usage,
    usage_percent 7 10 (Fake.start (Fake.p1 [])) =
      (Ok usage, Fake.start (Fake.p1 [])) /\
    (0 < 10 -> usage = PyFloat (inject_Z 7 / inject_Z 10 * inject_Z 100)%Q) /\
    (10 = 0 -> usage = PyInt 0) /\
    (number_value usage == percent 7 10)%Q.
Proof.
  apply (usage_percent_formula 7 10 (Fake.start (Fake.p1 []))); lia.
Defined.

(** ** Counting instances *)

Lemma sum_node_counts_total {Env} (sdk : Clients Env) urls acc w :
  sum_node_counts sdk urls acc w =
  bind (node_counts sdk urls) (fun ns => ret (acc + total ns)) w.
Proof.
  revert acc w; induction urls as [|url urls IH]; intros acc w; simpl.
  - unfold bind, ret; simpl. now rewrite Z.add_0_r.
  - unfold bind at 1 2 3.
    destruct (get_instance_group_node_count sdk url w) as [[n|e] w1];
      [|reflexivity].
    rewrite IH. unfold bind, ret.
    destruct (node_counts sdk urls w1) as [[ns|e] w2]; [|reflexivity].
    simpl. f_equal. f_equal. lia.
Qed.

Lemma get_node_pool_info_body_ok {Env} (sdk : Clients Env)
  project_id region cluster node_pool_name w pool env1 counts w2 :
  let path := ("projects/" ++ project_id ++ "/locations/" ++ region
               ++ "/clusters/" ++ cluster ++ "/nodePools/"
               ++ node_pool_name)%string in
  get_node_pool sdk path (cloud w) = (Ok pool, env1) ->
  node_counts sdk (instance_group_urls pool)
    (mkWorld env1 (trace w ++ [Remote (GetNodePool path)])) = (Ok counts, w2) ->
  get_node_pool_info_body sdk project_id region cluster node_pool_name w =
  (Ok {| current_node_count := total counts;
         max_node_count := autoscaling_max_node_count pool;
         node_usage_percent :=
           if autoscaling_max_node_count pool =? 0 then PyInt 0
           else PyFloat (inject_Z (total counts)
                         / inject_Z (autoscaling_max_node_count pool)
                         * inject_Z 100)%Q |}, w2).
Proof.
  intros path Hpool Hcounts. unfold get_node_pool_info_body. fold path.
  rewrite (bind_ok _ _ _ _ _ (remote_ok _ _ _ _ _ Hpool)).
  erewrite bind_ok.
  2:{ rewrite sum_node_counts_total. erewrite bind_ok by exact Hcounts.
      reflexivity. }
  erewrite bind_ok by apply usage_percent_ok.
  reflexivity.
Qed.

(** C4: the node count of a node pool is the total of the counts of
    its instance groups; a node pool without instance groups has the
    count 0 and, under a positive ceiling, the utilisation 0; the two
    groups of 3 and 4 instances of np1 under the ceiling 10 give the
    record (7, 10, 70). *)
Theorem node_pool_info_sums {Env} (sdk : Clients Env)
  project_id region cluster node_pool_name w pool env1 counts w2 :
  let path := ("projects/" ++ project_id ++ "/locations/" ++ region
               ++ "/clusters/" ++ cluster ++ "/nodePools/"
               ++ node_pool_name)%string in
  get_node_pool sdk path (cloud w) = (Ok pool, env1) ->
  node_counts sdk (instance_group_urls pool)
    (mkWorld env1 (trace w ++ [Remote (GetNodePool path)])) = (Ok counts, w2) ->
  (exists info,
     get_node_pool_info sdk project_id region cluster node_pool_name w
       = (Ok info, w2) /\
     current_node_count info = total counts /\
     max_node_count info = autoscaling_max_node_count pool /\
     (instance_group_urls pool = [] ->
      current_node_count info = 0 /\
      (0 < max_node_count info ->
       (number_value (node_usage_percent info) == 0)%Q))) /\
  (let w0 := Fake.start (Fake.p1 []) in
   node_counts Fake.sdk (instance_group_urls Fake.np1)
     (mkWorld (cloud w0)
        [Remote (GetNodePool
           "projects/p1/locations/us-central1/clusters/c1/nodePools/np1")])
     = (Ok [3; 4],
        mkWorld (cloud w0)
          [Remote (GetNodePool
             "projects/p1/locations/us-central1/clusters/c1/nodePools/np1");
           Remote (ListInstances "p1" "us-central1-a" "g1");
           Remote (ListInstances "p1" "us-central1-a" "g2")]) /\
   exists usage,
     fst (get_node_pool_info Fake.sdk "p1" "us-central1" "c1" "np1" w0)
       = Ok {| current_node_count := 7;
               max_node_count := 10;
               node_usage_percent := PyFloat usage |} /\
     (usage == 70)%Q).
Proof.
  intros path Hpool Hcounts. split.
  - eexists. split.
    { apply retry_ok.
      exact (get_node_pool_info_body_ok sdk _ _ _ _ _ _ _ _ _ Hpool Hcounts). }
    cbn [current_node_count max_node_count node_usage_percent].
    split; [reflexivity|]. split; [reflexivity|].
    intros Hnil. rewrite Hnil in Hcounts. inversion Hcounts; subst counts.
    split; [reflexivity|]. intros Hmax.
    destruct (Z.eqb_spec (autoscaling_max_node_count pool) 0) as [E|_];
      [lia|].
    cbn [number_value total fold_right]. unfold Qdiv.
    now rewrite !Qmult_0_l.
  - intros w0. split; [reflexivity|].
    eexists. split; [reflexivity|reflexivity].
Qed.

Lemma node_pool_info_sums_witness :
  exists info w2,
    get_node_pool_info Fake.sdk "p1" "us-central1" "c1" "np2"
      (Fake.start (Fake.p1 [])) = (Ok info, w2) /\
    current_node_count info = 0 /\
    max_node_count info = 4 /\
    (number_value (node_usage_percent info) == 0)%Q.
Proof.
  destruct (node_pool_info_sums Fake.sdk "p1" "us-central1" "c1" "np2"
              (Fake.start (Fake.p1 [])) Fake.np2 (Fake.p1 []) [] _
              eq_refl eq_refl) as [(info & Hrun & Hcur & Hmax & Hnil) _].
  destruct (Hnil eq_refl) as [_ Husage].
  exists info. eexists. split; [exact Hrun|].
  split; [exact Hcur|]. split; [exact Hmax|].
  apply Husage. rewrite Hmax. reflexivity.
Defined.



(** ** Instance-group locators *)

Lemma get_instance_group_node_count_body_slots {Env} (sdk : Clients Env)
  url project zone group w :
  nth_error (split "/" url) 6 = Some project ->
  nth_error (split "/" url) 8 = Some zone ->
  nth_error (split "/" url) 10 = Some group ->
  get_instance_group_node_count_body sdk url w =
  bind (remote (ListInstances project zone group)
          (list_instances sdk project zone group))
       (fun response => ret (len_or_zero response)) w.
Proof.
  intros H6 H8 H10. unfold get_instance_group_node_count_body, index.
  rewrite H6, H8, H10. reflexivity.
Qed.

Lemma get_instance_group_node_count_body_short {Env} (sdk : Clients Env)
  url w :
  (List.length (split "/" url) < 11)%nat ->
  get_instance_group_node_count_body sdk url w = (Raise IndexError, w).
Proof.
  intros Hlen. unfold get_instance_group_node_count_body, index, bind.
  assert (H10 : nth_error (split "/" url) 10 = None)
    by (apply nth_error_None; lia).
  rewrite H10.
  destruct (nth_error _ 6); [|reflexivity].
  destruct (nth_error _ 8); reflexivity.
Qed.

(** C5 (as the code has it): a locator with fewer than 11
    slash-separated segments makes every attempt raise [IndexError]
    before any remote call; the decorated call repeats the parse five
    times, sleeping in between, and raises [RetryError] without having
    called the service.  A locator with 11 segments or more is parsed:
    project, zone and group name are the segments 6, 8 and 10, and the
    listing is requested for them. *)
Theorem locator_slots {Env} (sdk : Clients Env) (url : string)
  (w : World Env) :
  ((List.length (split "/" url) < 11)%nat ->
   get_instance_group_node_count_body sdk url w = (Raise IndexError, w) /\
   get_instance_group_node_count sdk url w =
     (Raise (RetryError IndexError),
      mkWorld (cloud w)
        (trace w ++ [Sleep 2; Sleep 2; Sleep 2; Sleep 2]))) /\
  ((11 <= List.length (split "/" url))%nat ->
   exists project zone group,
     nth_error (split "/" url) 6 = Some project /\
     nth_error (split "/" url) 8 = Some zone /\
     nth_error (split "/" url) 10 = Some group /\
     get_instance_group_node_count_body sdk url w =
     bind (remote (ListInstances project zone group)
             (list_instances sdk project zone group))
          (fun response => ret (len_or_zero response)) w).
Proof.
  split.
  - intros Hlen. split.
    { now apply get_instance_group_node_count_body_short. }
    unfold get_instance_group_node_count, retry, retry_statistics.
    change (RETRY_ATTEMPTS - 1)%nat with 4%nat.
    do 4 (erewrite retry_loop_step;
          [|now apply get_instance_group_node_count_body_short|reflexivity]).
    erewrite retry_loop_exhausted;
      [|now apply get_instance_group_node_count_body_short|reflexivity].
    unfold sleep, log, RETRY_WAIT. simpl.
    now rewrite <- !app_assoc.
  - intros Hlen.
    destruct (nth_error (split "/" url) 6) as [project|] eqn:H6;
      [|apply nth_error_None in H6; lia].
    destruct (nth_error (split "/" url) 8) as [zone|] eqn:H8;
      [|apply nth_error_None in H8; lia].
    destruct (nth_error (split "/" url) 10) as [group|] eqn:H10;
      [|apply nth_error_None in H10; lia].
    exists project, zone, group. repeat split.
    now apply get_instance_group_node_count_body_slots.
Qed.

Lemma locator_slots_witness :
  (get_instance_group_node_count Fake.sdk "projects/p1/zones/z/g1"
     (Fake.start (Fake.p1 []))
   = (Raise (RetryError IndexError),
      mkWorld (Fake.p1 []) [Sleep 2; Sleep 2; Sleep 2; Sleep 2])) /\
  (exists project zone group,
     nth_error (split "/" (Fake.group_url "g1")) 6 = Some project /\
     nth_error (split "/" (Fake.group_url "g1")) 8 = Some zone /\
     nth_error (split "/" (Fake.group_url "g1")) 10 = Some group /\
     get_instance_group_node_count_body Fake.sdk (Fake.group_url "g1")
       (Fake.start (Fake.p1 [])) =
     bind (remote (ListInstances project zone group)
             (list_instances Fake.sdk project zone group))
          (fun response => ret (len_or_zero response))
          (Fake.start (Fake.p1 []))).
Proof.
  split.
  - apply (proj1 (locator_slots Fake.sdk "projects/p1/zones/z/g1"
                    (Fake.start (Fake.p1 [])))).
    vm_compute. lia.
  - apply (proj2 (locator_slots Fake.sdk (Fake.group_url "g1")
                    (Fake.start (Fake.p1 [])))).
    vm_compute. lia.
Defined.

(** C5 (as stated) fails: a locator of 12 segments, one more than the
    expected 11, is not rejected; the listing is requested for the
    segments 6, 8 and 10 and the count is returned. *)
Lemma long_locator_is_accepted :
  let url := (Fake.group_url "g1" ++ "/extra")%string in
  List.length (split "/" url) = 12%nat /\
  get_instance_group_node_count Fake.sdk url (Fake.start (Fake.p1 []))
  = (Ok 3, mkWorld (Fake.p1 [])
             [Remote (ListInstances "p1" "us-central1-a" "g1")]).
Proof. split; reflexivity. Qed.

(** C6: when the listing answers, the count is the number of items
    returned, and the integer 0 when the items are absent or empty. *)
Theorem count_instances {Env} (sdk : Clients Env)
  url project zone group w items env' :
  nth_error (split "/" url) 6 = Some project ->
  nth_error (split "/" url) 8 = Some zone ->
  nth_error (split "/" url) 10 = Some group ->
  list_instances sdk project zone group (cloud w) = (Ok items, env') ->
  exists n,
    get_instance_group_node_count sdk url w =
      (Ok n, mkWorld env'
               (trace w ++ [Remote (ListInstances project zone group)])) /\
    (items = None \/ items = Some [] -> n = 0) /\
    (forall l, items = Some l -> n = Z.of_nat (List.length l)).
Proof.
  intros H6 H8 H10 Hlist. exists (len_or_zero items). split.
  - apply retry_ok.
    rewrite (get_instance_group_node_count_body_slots sdk _ _ _ _ _ H6 H8 H10).
    now rewrite (bind_ok _ _ _ _ _ (remote_ok _ _ _ _ _ Hlist)).
  - split.
    + intros [-> | ->]; reflexivity.
    + intros l ->. destruct l; reflexivity.
Qed.

Lemma count_instances_witness :
  (exists n w',
      get_instance_group_node_count Fake.sdk (Fake.group_url "g3")
        (Fake.start (Fake.p1 [])) = (Ok n, w') /\ n = 0) /\
  (exists n w',
      get_instance_group_node_count Fake.sdk (Fake.group_url "g4")
        (Fake.start (Fake.p1 [])) = (Ok n, w') /\ n = 0) /\
  (exists n w',
      get_instance_group_node_count Fake.sdk (Fake.group_url "g2")
        (Fake.start (Fake.p1 [])) = (Ok n, w') /\ n = 4).
Proof.
  split; [|split].
  - destruct (count_instances Fake.sdk (Fake.group_url "g3")
                "p1" "us-central1-a" "g3" (Fake.start (Fake.p1 []))
                None (Fake.p1 []) eq_refl eq_refl eq_refl eq_refl)
      as (n & Hrun & Hzero & _).
    exists n. eexists. split; [exact Hrun|]. apply Hzero. now left.
  - destruct (count_instances Fake.sdk (Fake.group_url "g4")
                "p1" "us-central1-a" "g4" (Fake.start (Fake.p1 []))
                (Some []) (Fake.p1 []) eq_refl eq_refl eq_refl eq_refl)
      as (n & Hrun & Hzero & _).
    exists n. eexists. split; [exact Hrun|]. apply Hzero. now right.
  - destruct (count_instances Fake.sdk (Fake.group_url "g2")
                "p1" "us-central1-a" "g2" (Fake.start (Fake.p1 []))
                (Some ["i4"; "i5"; "i6"; "i7"]%string) (Fake.p1 [])
                eq_refl eq_refl eq_refl eq_refl)
      as (n & Hrun & _ & Hlen).
    exists n. eexists. split; [exact Hrun|]. exact (Hlen _ eq_refl).
Defined.

(** ** Emission *)

Lemma send_metrics_to_newrelic_body_answered {Env} (sdk : Clients Env)
  client project_id region cluster node_pool_name info w response env' :
  let metrics :=
    make_metrics (make_tags project_id region cluster node_pool_name) info in
  send_batch sdk client metrics (cloud w) = (Ok response, env') ->
  send_metrics_to_newrelic_body sdk client project_id region cluster
    node_pool_name info w =
  let w1 := mkWorld env' (trace w ++ [Remote (SendBatch client metrics)]) in
  if ok response then (Ok tt, log (Print MsgSent) w1)
  else (Raise (HTTPError (status response)), w1).
Proof.
  intros metrics Hsend. unfold send_metrics_to_newrelic_body. fold metrics.
  rewrite (bind_ok _ _ _ _ _ (remote_ok _ _ _ _ _ Hsend)).
  unfold raise_for_status, bind. destruct (ok response); reflexivity.
Qed.

(** C7: the batch of a node pool holds exactly three gauges, the
    current node count, the maximum node count and the usage percent,
    each with the same four tags; one attempt hands the three to the
    endpoint in a single call; a response whose status is not a success
    makes the attempt raise, and the decorator then retries. *)
Theorem emitter_batch {Env} (sdk : Clients Env) (client : option string)
  (project_id region cluster node_pool_name : string) (info : NodePoolInfo)
  (w : World Env) :
  let tags := [("project_id", project_id); ("region", region);
               ("cluster_name", cluster);
               ("node_pool_name", node_pool_name)]%string in
  let metrics :=
    make_metrics (make_tags project_id region cluster node_pool_name) info in
  let attempt :=
    send_metrics_to_newrelic_body sdk client project_id region cluster
      node_pool_name info in
  metrics =
    [ {| metric_name := "gke.node_pool.current_node_count";
         metric_value := PyInt (current_node_count info);
         metric_tags := tags |};
      {| metric_name := "gke.node_pool.max_node_count";
         metric_value := PyInt (max_node_count info);
         metric_tags := tags |};
      {| metric_name := "gke.node_pool.node_usage_percent";
         metric_value := node_usage_percent info;
         metric_tags := tags |} ] /\
  (forall response env',
      send_batch sdk client metrics (cloud w) = (Ok response, env') ->
      let w1 := mkWorld env' (trace w ++ [Remote (SendBatch client metrics)]) in
      (200 <= status response < 300 ->
       attempt w = (Ok tt, log (Print MsgSent) w1) /\
       send_metrics_to_newrelic sdk client project_id region cluster
         node_pool_name info w = (Ok tt, log (Print MsgSent) w1)) /\
      (~ 200 <= status response < 300 ->
       attempt w = (Raise (HTTPError (status response)), w1) /\
       retry_statistics attempt w
         = retry_loop 3 2 attempt (sleep RETRY_WAIT w1))).
Proof.
  intros tags metrics attempt. split; [reflexivity|].
  intros response env' Hsend w1.
  pose proof (send_metrics_to_newrelic_body_answered sdk client project_id
                region cluster node_pool_name info w response env' Hsend)
    as Hrun.
  fold metrics attempt in Hrun. cbv zeta in Hrun. fold w1 in Hrun.
  unfold ok in Hrun. split; intros Hstatus.
  - replace ((200 <=? status response) && (status response <? 300))
      with true in Hrun by (symmetry; apply andb_true_iff; lia).
    split; [exact Hrun|]. apply retry_ok, Hrun.
  - replace ((200 <=? status response) && (status response <? 300))
      with false in Hrun
      by (symmetry; apply andb_false_iff; lia).
    split; [exact Hrun|].
    eapply retry_first_failure; [exact Hrun|reflexivity].
Qed.

Lemma emitter_batch_witness :
  let info := {| current_node_count := 7; max_node_count := 10;
                 node_usage_percent := PyFloat 70 |} in
  (exists w',
      send_metrics_to_newrelic Fake.sdk (Some "key") "p1" "us-central1"
        "c1" "np1" info (Fake.start (Fake.p1 [])) = (Ok tt, w')) /\
  (exists w',
      send_metrics_to_newrelic_body Fake.sdk (Some "key") "p1" "us-central1"
        "c1" "np1" info
        (Fake.start (Fake.with_ingest_status 503 (Fake.p1 [])))
      = (Raise (HTTPError 503), w')).
Proof.
  intros info. split.
  - eexists.
    apply (proj2 (emitter_batch Fake.sdk (Some "key") "p1" "us-central1"
                    "c1" "np1" info (Fake.start (Fake.p1 [])))
             {| status := 202 |} (Fake.p1 []) eq_refl).
    simpl. lia.
  - eexists.
    apply (proj2 (emitter_batch Fake.sdk (Some "key") "p1" "us-central1"
                    "c1" "np1" info
                    (Fake.start (Fake.with_ingest_status 503 (Fake.p1 []))))
             {| status := 503 |} (Fake.with_ingest_status 503 (Fake.p1 []))
             eq_refl).
    simpl. lia.
Defined.

(** ** Discovery *)

Lemma keys_dict_set {V} (k : string) (v : V) (d : dict V) :
  keys (dict_set k v d) = if mem k (keys d) then keys d else keys d ++ [k].
Proof.
  induction d as [|[k' v'] d IH]; simpl; [reflexivity|].
  rewrite (String.eqb_sym k k').
  destruct (String.eqb k' k); simpl; [reflexivity|].
  unfold keys in *. simpl. rewrite IH.
  destruct (mem k (map fst d)); reflexivity.
Qed.

Lemma mem_In (k : string) (l : list string) : mem k l = true <-> In k l.
Proof.
  unfold mem. rewrite existsb_exists. split.
  - intros (x & Hx & E). apply String.eqb_eq in E. now subst.
  - intros H. exists k. split; [exact H|apply String.eqb_refl].
Qed.

Lemma dict_set_fresh {V} (k : string) (v : V) (d : dict V) :
  ~ In k (keys d) -> dict_set k v d = d ++ [(k, v)].
Proof.
  induction d as [|[k' v'] d IH]; simpl; intros Hk; [reflexivity|].
  destruct (String.eqb_spec k' k) as [E|_].
  - exfalso. apply Hk. now left.
  - rewrite IH; [reflexivity|]. intros H. apply Hk. now right.
Qed.

Lemma In_dict_set {V} (k : string) (v : V) (d : dict V) k1 v1 :
  In (k1, v1) (dict_set k v d) -> In (k1, v1) d \/ (k1 = k /\ v1 = v).
Proof.
  induction d as [|[k' v'] d IH]; simpl.
  - intros [E|[]]. inversion E. now right.
  - destruct (String.eqb_spec k' k) as [E|_]; simpl.
    + intros [E'|H]; [inversion E'; subst; now right|left; now right].
    + intros [E'|H]; [left; now left|].
      destruct (IH H) as [H'|H']; [left; now right|now right].
Qed.

Lemma node_pools_of_clusters_listings {Env} (sdk : Clients Env)
  project_id region clusters acc w :
  node_pools_of_clusters sdk project_id region clusters acc w =
  bind (node_pool_listings sdk project_id region clusters)
    (fun ls => ret (fold_left record_listing (combine clusters ls) acc)) w.
Proof.
  revert acc w; induction clusters as [|c cs IH]; intros acc w; simpl.
  - reflexivity.
  - unfold bind at 1 2 3.
    destruct (remote _ _ w) as [[l|e] w1]; [|reflexivity].
    rewrite IH. unfold bind, ret.
    destruct (node_pool_listings sdk project_id region cs w1)
      as [[ls|e] w2]; reflexivity.
Qed.

Lemma node_pool_listings_length {Env} (sdk : Clients Env)
  project_id region clusters w ls w' :
  node_pool_listings sdk project_id region clusters w = (Ok ls, w') ->
  List.length ls = List.length clusters.
Proof.
  revert w ls w'; induction clusters as [|c cs IH]; intros w ls w'; simpl.
  - intros H; inversion H; reflexivity.
  - intros H. apply bind_inv_ok in H as (l & w1 & _ & H).
    apply bind_inv_ok in H as (ls' & w2 & Hls & H).
    inversion H; subst. simpl. f_equal. exact (IH _ _ _ Hls).
Qed.

Lemma keys_fold_record cls acc :
  keys (fold_left record_listing cls acc) =
  fold_left (fun seen k => if mem k seen then seen else seen ++ [k])
    (map (fun cl => cluster_name (fst cl)) cls) (keys acc).
Proof.
  revert acc; induction cls as [|cl cls IH]; intros acc; simpl;
    [reflexivity|].
  rewrite IH. unfold record_listing. now rewrite keys_dict_set.
Qed.

Lemma fold_record_fresh cls acc :
  NoDup (map (fun cl => cluster_name (fst cl)) cls) ->
  (forall cl, In cl cls -> ~ In (cluster_name (fst cl)) (keys acc)) ->
  fold_left record_listing cls acc =
  acc ++ map (fun cl => (cluster_name (fst cl), map name (snd cl))) cls.
Proof.
  revert acc; induction cls as [|cl cls IH]; intros acc Hnd Hfresh; simpl.
  - now rewrite app_nil_r.
  - inversion Hnd as [|? ? Hnotin Hnd']; subst.
    assert (Hset : record_listing acc cl
                   = acc ++ [(cluster_name (fst cl), map name (snd cl))]).
    { unfold record_listing. apply dict_set_fresh, Hfresh. now left. }
    rewrite IH; [now rewrite Hset, <- app_assoc|exact Hnd'|].
    intros cl' Hin. rewrite Hset. unfold keys.
    rewrite map_app, in_app_iff. simpl.
    intros [H|[H|[]]].
    + apply (Hfresh cl'); [now right|exact H].
    + apply Hnotin. rewrite H.
      exact (in_map (fun cl => cluster_name (fst cl)) _ _ Hin).
Qed.

Lemma In_fold_record cls acc k v :
  In (k, v) (fold_left record_listing cls acc) ->
  In (k, v) acc \/
  exists cl, In cl cls /\ k = cluster_name (fst cl) /\ v = map name (snd cl).
Proof.
  revert acc; induction cls as [|cl cls IH]; intros acc; simpl; [auto|].
  intros H. destruct (IH _ H) as [H'|(cl' & Hin & Hk & Hv)].
  - apply In_dict_set in H' as [H'|[-> ->]]; [now left|].
    right. exists cl. auto.
  - right. exists cl'. auto.
Qed.

Lemma map_names_combine (clusters : list Cluster) (ls : list (list NodePool)) :
  List.length ls = List.length clusters ->
  map (fun cl => cluster_name (fst cl)) (combine clusters ls)
    = map cluster_name clusters /\
  map (fun cl => (cluster_name (fst cl), map name (snd cl))) (combine clusters ls)
    = combine (map cluster_name clusters) (map (map name) ls).
Proof.
  revert ls; induction clusters as [|c cs IH]; intros [|l ls]; simpl;
    try discriminate; intros H; [split; reflexivity|].
  destruct (IH ls ltac:(lia)) as [H1 H2]. now rewrite H1, H2.
Qed.

(** C8: the mapping of the discovery lists the cluster names in the
    order in which the API returned them (a name once, where it first
    appears) and every value is the list of node-pool names of a
    listing, in the order of that listing; when the cluster names are
    distinct the items are exactly the clusters paired with their
    node-pool names, both in API order. *)
Theorem discovery_keeps_api_order {Env} (sdk : Clients Env)
  project_id region w clusters env1 listings w2 :
  let parent := ("projects/" ++ project_id ++ "/locations/" ++ region)%string in
  list_clusters sdk parent (cloud w) = (Ok clusters, env1) ->
  node_pool_listings sdk project_id region clusters
    (mkWorld env1 (trace w ++ [Remote (ListClusters parent)]))
    = (Ok listings, w2) ->
  exists d,
    get_all_clusters_and_node_pools sdk project_id region w = (Ok d, w2) /\
    keys d = first_occurrences (map cluster_name clusters) /\
    (forall k v, In (k, v) d ->
       exists c l, In (c, l) (combine clusters listings) /\
                   k = cluster_name c /\ v = map name l) /\
    (NoDup (map cluster_name clusters) ->
     d = combine (map cluster_name clusters) (map (map name) listings)).
Proof.
  intros parent Hclusters Hlistings.
  pose proof (node_pool_listings_length _ _ _ _ _ _ _ Hlistings) as Hlen.
  destruct (map_names_combine clusters listings Hlen) as [Hnames Hitems].
  exists (fold_left record_listing (combine clusters listings) []).
  split; [|split; [|split]].
  - apply retry_ok. unfold get_all_clusters_and_node_pools_body. fold parent.
    rewrite (bind_ok _ _ _ _ _ (remote_ok _ _ _ _ _ Hclusters)).
    rewrite node_pools_of_clusters_listings.
    now rewrite (bind_ok _ _ _ _ _ Hlistings).
  - rewrite keys_fold_record, Hnames. reflexivity.
  - intros k v H. apply In_fold_record in H as [[]|([c l] & Hin & Hk & Hv)].
    exists c, l. auto.
  - intros Hnd. rewrite fold_record_fresh.
    + simpl. exact Hitems.
    + now rewrite Hnames.
    + intros cl _ [].
Qed.

Lemma discovery_keeps_api_order_witness :
  exists w2,
    get_all_clusters_and_node_pools Fake.sdk "p1" "us-central1"
      (Fake.start (Fake.p1 [])) = (Ok [("c1", ["np1"; "np2"])]%string, w2).
Proof.
  destruct (discovery_keeps_api_order Fake.sdk "p1" "us-central1"
              (Fake.start (Fake.p1 [])) [ {| cluster_name := "c1" |} ]
              (Fake.p1 []) [[Fake.np1; Fake.np2]] _ eq_refl eq_refl)
    as (d & Hrun & _ & _ & Hd).
  eexists. rewrite Hrun. f_equal. f_equal. apply Hd.
  repeat constructor. intros [].
Defined.

(** ** Configuration *)

Lemma remote_calls_app t1 t2 :
  remote_calls (t1 ++ t2) = remote_calls t1 ++ remote_calls t2.
Proof.
  induction t1 as [|[s|c|m] t1 IH]; simpl; auto. now rewrite IH.
Qed.

Lemma emissions_app t1 t2 :
  emissions (t1 ++ t2) = emissions t1 ++ emissions t2.
Proof.
  induction t1 as [|[s|[]|m] t1 IH]; simpl; auto. now rewrite IH.
Qed.

(** C9: without project ids, unset or empty, the program prints the
    configuration message and returns; the cloud is untouched and the
    trace gains the message only, so no remote call is made and no
    metric is sent. *)
Theorem no_project_ids {Env} (sdk : Clients Env)
  (environ : string -> option string) (w : World Env) :
  environ "GCP_PROJECT_IDS"%string = None \/
  environ "GCP_PROJECT_IDS"%string = Some ""%string ->
  main sdk environ w
    = (Ok tt, mkWorld (cloud w) (trace w ++ [Print MsgNoProjectIds])) /\
  remote_calls (trace (snd (main sdk environ w))) = remote_calls (trace w) /\
  emissions (trace (snd (main sdk environ w))) = emissions (trace w).
Proof.
  intros H.
  assert (Hmain : main sdk environ w
                  = (Ok tt, mkWorld (cloud w)
                              (trace w ++ [Print MsgNoProjectIds]))).
  { unfold main, getenv_default. destruct H as [-> | ->]; reflexivity. }
  rewrite Hmain. split; [reflexivity|]. simpl.
  rewrite remote_calls_app, emissions_app. simpl.
  now rewrite !app_nil_r.
Qed.

Lemma no_project_ids_witness :
  main Fake.sdk Fake.no_environ (Fake.start (Fake.p1 []))
  = (Ok tt, mkWorld (Fake.p1 []) [Print MsgNoProjectIds]).
Proof.
  apply (no_project_ids Fake.sdk Fake.no_environ (Fake.start (Fake.p1 []))).
  left. reflexivity.
Defined.

(** ** The traversal *)

Lemma bind_raise_iff {Env A B} (m : M Env A) (k : A -> M Env B) w e wf :
  bind m k w = (Raise e, wf) <->
  m w = (Raise e, wf) \/
  exists a w1, m w = (Ok a, w1) /\ k a w1 = (Raise e, wf).
Proof.
  unfold bind. destruct (m w) as [[a|e'] w1]; split.
  - intros H. right. exists a, w1. auto.
  - intros [H|(a' & w1' & H & Hk)]; [discriminate|].
    inversion H; subst. exact Hk.
  - intros H. inversion H; subst. now left.
  - intros [H|(a' & w1' & H & _)]; [|discriminate].
    inversion H; reflexivity.
Qed.

Lemma for_each_raise_iff {Env X} (body : X -> M Env unit) xs w e wf :
  for_each xs body w = (Raise e, wf) <-> aborts_at body xs w e wf.
Proof. split; [apply for_each_raise_inv|apply for_each_aborts]. Qed.

Lemma pass_without_key {Env} (sdk : Clients Env)
  (environ : string -> option string) project_ids region (w : World Env) :
  environ "NEW_RELIC_API_KEY"%string = None \/
  environ "NEW_RELIC_API_KEY"%string = Some ""%string ->
  list_clusters_and_node_pools_info_and_send_metrics_body sdk environ
    project_ids region w = (Raise ValueError, w).
Proof.
  unfold list_clusters_and_node_pools_info_and_send_metrics_body, getenv.
  intros [-> | ->]; reflexivity.
Qed.

Lemma pass_with_key {Env} (sdk : Clients Env)
  (environ : string -> option string) project_ids region (w : World Env)
  c key :
  environ "NEW_RELIC_API_KEY"%string = Some (String c key) ->
  list_clusters_and_node_pools_info_and_send_metrics_body sdk environ
    project_ids region w
  = for_each project_ids
      (visit_project sdk (Some (String c key)) region) w.
Proof.
  unfold list_clusters_and_node_pools_info_and_send_metrics_body, getenv.
  intros ->. reflexivity.
Qed.

(** C2 (as the code has it): a pass of the traversal first builds the
    metrics client, which raises [ValueError] before any call when
    [NEW_RELIC_API_KEY] is missing or empty.  With a key, the pass
    raises exactly when one of its leaf calls (discovery, resolution or
    emission) raises, which a decorated call does once its retries are
    exhausted, and the pass then ends in the world that this call left:
    the items before it completed, nothing is called, printed or
    emitted after it, at each of the three nesting levels.  The
    traversal is itself decorated: after a pass that raised an
    [Exception] it sleeps and starts a new pass from the first project;
    it raises [RetryError] when the fifth pass has failed, and a
    failure that is not an [Exception] ends the run at once. *)
Theorem pass_stops_at_first_failure {Env} (sdk : Clients Env)
  (environ : string -> option string) (project_ids : list string)
  (region : string) (w : World Env) :
  let key := environ "NEW_RELIC_API_KEY"%string in
  let pass :=
    list_clusters_and_node_pools_info_and_send_metrics_body sdk environ
      project_ids region in
  let run :=
    list_clusters_and_node_pools_info_and_send_metrics sdk environ
      project_ids region in
  (forall e wf,
      pass w = (Raise e, wf) <->
      ((key = None \/ key = Some ""%string) /\ e = ValueError /\ wf = w) \/
      ((exists c k, key = Some (String c k)) /\
       aborts_at (visit_project sdk key region) project_ids w e wf)) /\
  (forall client project_id w1 e wf,
      visit_project sdk client region project_id w1 = (Raise e, wf) <->
      get_all_clusters_and_node_pools sdk project_id region
        (log (Print (MsgProject project_id)) w1) = (Raise e, wf) \/
      exists d w2,
        get_all_clusters_and_node_pools sdk project_id region
          (log (Print (MsgProject project_id)) w1) = (Ok d, w2) /\
        aborts_at (visit_cluster sdk client project_id region) d w2 e wf) /\
  (forall client project_id cluster node_pools w1 e wf,
      visit_cluster sdk client project_id region (cluster, node_pools) w1
        = (Raise e, wf) <->
      aborts_at (visit_node_pool sdk client project_id region cluster)
        node_pools (log (Print (MsgCluster cluster)) w1) e wf) /\
  (forall client project_id cluster node_pool w1 e wf,
      visit_node_pool sdk client project_id region cluster node_pool w1
        = (Raise e, wf) <->
      get_node_pool_info sdk project_id region cluster node_pool w1
        = (Raise e, wf) \/
      exists info w2,
        get_node_pool_info sdk project_id region cluster node_pool w1
          = (Ok info, w2) /\
        send_metrics_to_newrelic sdk client project_id region cluster
          node_pool info (log (Print (MsgNodePool node_pool info)) w2)
          = (Raise e, wf)) /\
  (forall e wf,
      pass w = (Raise e, wf) -> isinstance_Exception e = true ->
      run w = fst (retry_loop 3 2 pass (sleep RETRY_WAIT wf))) /\
  (forall w4 e wf,
      fails_times pass 4 w w4 -> pass w4 = (Raise e, wf) ->
      isinstance_Exception e = true ->
      run w = (Raise (RetryError e), wf)) /\
  (forall e wf,
      pass w = (Raise e, wf) -> isinstance_Exception e = false ->
      run w = (Raise e, wf)).
Proof.
  intros key pass run.
  split; [|split; [|split; [|split; [|split; [|split]]]]].
  - intros e wf. unfold pass.
    destruct key as [[|c k]|] eqn:Hkey; unfold key in Hkey.
    + rewrite pass_without_key by (now right). split.
      * intros H. inversion H; subst. left. repeat split. now right.
      * intros [(_ & -> & ->)|((c & k & Hk) & _)]; [reflexivity|discriminate].
    + rewrite (pass_with_key sdk environ project_ids region w c k Hkey).
      rewrite for_each_raise_iff. split.
      * intros H. right. split; [now exists c, k|exact H].
      * intros [([Hk|Hk] & _)|(_ & H)]; [discriminate|discriminate|exact H].
    + rewrite pass_without_key by (now left). split.
      * intros H. inversion H; subst. left. repeat split. now left.
      * intros [(_ & -> & ->)|((c & k & Hk) & _)]; [reflexivity|discriminate].
  - intros client project_id w1 e wf. unfold visit_project.
    rewrite bind_raise_iff. split.
    + intros [H|([] & w' & H & Hk)]; [discriminate|].
      inversion H; subst w'. apply bind_raise_iff in Hk.
      destruct Hk as [Hk|(d & w2 & Hd & Hk)]; [now left|].
      right. exists d, w2. split; [exact Hd|]. now apply for_each_raise_iff.
    + intros H. right. exists tt, (log (Print (MsgProject project_id)) w1).
      split; [reflexivity|]. apply bind_raise_iff.
      destruct H as [H|(d & w2 & Hd & Hk)]; [now left|].
      right. exists d, w2. split; [exact Hd|]. now apply for_each_raise_iff.
  - intros client project_id cluster node_pools w1 e wf. unfold visit_cluster.
    rewrite bind_raise_iff. split.
    + intros [H|([] & w' & H & Hk)]; [discriminate|].
      inversion H; subst w'. now apply for_each_raise_iff.
    + intros H. right. exists tt, (log (Print (MsgCluster cluster)) w1).
      split; [reflexivity|]. now apply for_each_raise_iff.
  - intros client project_id cluster node_pool w1 e wf. unfold visit_node_pool.
    rewrite bind_raise_iff. split.
    + intros [H|(info & w2 & Hinfo & Hk)]; [now left|].
      right. exists info, w2. split; [exact Hinfo|].
      apply bind_raise_iff in Hk.
      destruct Hk as [Hk|([] & w' & H & Hk)]; [discriminate|].
      inversion H; subst w'. exact Hk.
    + intros [H|(info & w2 & Hinfo & Hk)]; [now left|].
      right. exists info, w2. split; [exact Hinfo|].
      apply bind_raise_iff. right.
      exists tt, (log (Print (MsgNodePool node_pool info)) w2).
      split; [reflexivity|exact Hk].
  - intros e wf Hpass He. unfold run.
    unfold list_clusters_and_node_pools_info_and_send_metrics, retry.
    fold pass. now rewrite (retry_first_failure pass w e wf Hpass He).
  - intros w4 e wf Hf Hpass He. unfold run.
    unfold list_clusters_and_node_pools_info_and_send_metrics, retry.
    fold pass. now rewrite (retry_statistics_exhausted pass w w4 e wf Hf Hpass He).
  - intros e wf Hpass He. unfold run.
    unfold list_clusters_and_node_pools_info_and_send_metrics, retry.
    fold pass.
    rewrite (retry_statistics_not_retried pass 0 w w e wf); [reflexivity| |
      apply fails_none|exact Hpass|exact He].
    unfold RETRY_ATTEMPTS. lia.
Qed.

Lemma pass_stops_at_first_failure_witness :
  let w := Fake.start (Fake.p1 [(Fake.np2_path, repeat Fake.unavailable 5)]) in
  let pass :=
    list_clusters_and_node_pools_info_and_send_metrics_body Fake.sdk
      Fake.environ ["p1"%string] "us-central1" in
  exists wf,
    pass w = (Raise (RetryError Fake.unavailable), wf) /\
    aborts_at (visit_project Fake.sdk (Some "key"%string) "us-central1")
      ["p1"%string] w (RetryError Fake.unavailable) wf /\
    list_clusters_and_node_pools_info_and_send_metrics Fake.sdk Fake.environ
      ["p1"%string] "us-central1" w
    = fst (retry_loop 3 2 pass (sleep RETRY_WAIT wf)).
Proof.
  intros w pass. exists (snd (pass w)).
  assert (Hpass : pass w = (Raise (RetryError Fake.unavailable), snd (pass w)))
    by (vm_compute; reflexivity).
  pose proof (pass_stops_at_first_failure Fake.sdk Fake.environ
                ["p1"%string] "us-central1" w) as (H1 & _ & _ & _ & H5 & _).
  split; [exact Hpass|]. split.
  - destruct (proj1 (H1 _ _) Hpass) as [(_ & He & _)|(_ & Habort)];
      [discriminate He|exact Habort].
  - exact (H5 _ _ Hpass eq_refl).
Defined.

(** C2 (as stated) fails: in the first pass np1 is emitted and the
    resolution of np2 then exhausts its five attempts, so the pass
    raises [RetryError]; the run goes on all the same: the traversal
    starts again, the batch of np1 is sent a second time, np2 resolves
    and its batch is sent, and the run returns normally. *)
Lemma run_emits_after_unrecovered_failure :
  let w := Fake.start (Fake.p1 [(Fake.np2_path, repeat Fake.unavailable 5)]) in
  let pass :=
    list_clusters_and_node_pools_info_and_send_metrics_body Fake.sdk
      Fake.environ ["p1"%string] "us-central1" in
  let run :=
    list_clusters_and_node_pools_info_and_send_metrics Fake.sdk
      Fake.environ ["p1"%string] "us-central1" in
  exists wf w' later b1 b2,
    pass w = (Raise (RetryError Fake.unavailable), wf) /\
    skipn 6 (remote_calls (trace wf))
      = repeat (GetNodePool Fake.np2_path) 5 /\
    emissions (trace wf) = [b1] /\
    run w = (Ok tt, w') /\
    trace w' = trace wf ++ later /\
    emissions later = [b1; b2].
Proof.
  intros w pass run.
  exists (snd (pass w)), (snd (run w)).
  exists (skipn (List.length (trace (snd (pass w)))) (trace (snd (run w)))).
  exists (make_metrics (make_tags "p1" "us-central1" "c1" "np1")
            {| current_node_count := 7; max_node_count := 10;
               node_usage_percent :=
                 PyFloat (inject_Z 7 / inject_Z 10 * inject_Z 100)%Q |}).
  exists (make_metrics (make_tags "p1" "us-central1" "c1" "np2")
            {| current_node_count := 0; max_node_count := 4;
               node_usage_percent :=
                 PyFloat (inject_Z 0 / inject_Z 4 * inject_Z 100)%Q |}).
  repeat split; vm_compute; reflexivity.
Qed.

(** * Further properties of the script *)

(** ** The decorator on arbitrary operations *)

Lemma retry_loop_attempts {Env A} (fn : M Env A) n a w :
  (a <= snd (retry_loop n a fn w) <= a + n)%nat.
Proof.
  revert a w; induction n as [|n IH]; intros a w; simpl;
    destruct (fn w) as [[v|e] w1]; simpl; try lia;
    destruct (isinstance_Exception e); simpl; try lia.
  specialize (IH (S a) (sleep RETRY_WAIT w1)). lia.
Qed.

Lemma retry_loop_sleeps {Env A} (fn : M Env A) n a w :
  never_sleeps fn ->
  sleeps (trace (snd (fst (retry_loop n a fn w)))) =
  sleeps (trace w) ++ repeat 2 (snd (retry_loop n a fn w) - a).
Proof.
  intros Hq. revert a w; induction n as [|n IH]; intros a w; simpl;
    pose proof (Hq w) as Hw; destruct (fn w) as [[v|e] w1]; simpl in *;
    try (rewrite Nat.sub_diag, Hw; simpl; now rewrite app_nil_r);
    destruct (isinstance_Exception e); simpl;
    try (rewrite Nat.sub_diag, Hw; simpl; now rewrite app_nil_r).
  rewrite IH. simpl. rewrite sleeps_app, Hw, <- app_assoc. simpl.
  pose proof (retry_loop_attempts fn n (S a) (sleep RETRY_WAIT w1)) as Hb.
  replace (snd (retry_loop n (S a) fn (sleep RETRY_WAIT w1)) - a)%nat
    with (S (snd (retry_loop n (S a) fn (sleep RETRY_WAIT w1)) - S a))
    by lia.
  reflexivity.
Qed.

Lemma count_events_app p t1 t2 :
  count_events p (t1 ++ t2) = (count_events p t1 + count_events p t2)%nat.
Proof. unfold count_events. now rewrite filter_app, length_app. Qed.

Lemma retry_loop_marks {Env A} (p : event -> bool) (fn : M Env A) n a w :
  marks_each_invocation p fn ->
  (count_events p (trace (snd (fst (retry_loop n a fn w)))) + a
   = count_events p (trace w) + S (snd (retry_loop n a fn w)))%nat.
Proof.
  intros [Hsleep Hmark]. revert a w; induction n as [|n IH]; intros a w;
    simpl; pose proof (Hmark w) as Hw; destruct (fn w) as [[v|e] w1];
    simpl in *; try lia;
    destruct (isinstance_Exception e); simpl; try lia.
  assert (Hs : count_events p (trace (sleep RETRY_WAIT w1))
               = count_events p (trace w1)).
  { unfold sleep, log. cbn [trace]. rewrite count_events_app.
    unfold count_events at 2. cbn [filter]. rewrite Hsleep. simpl. lia. }
  specialize (IH (S a) (sleep RETRY_WAIT w1)). lia.
Qed.

Lemma listing_marks_each_invocation {Env} (sdk : Clients Env) url :
  (11 <= List.length (split "/" url))%nat ->
  marks_each_invocation is_listing
    (get_instance_group_node_count_body sdk url).
Proof.
  intros Hlen. split; [reflexivity|]. intros w.
  rewrite (get_instance_group_node_count_body_slots sdk url
             (nth 6 (split "/" url) ""%string)
             (nth 8 (split "/" url) ""%string)
             (nth 10 (split "/" url) ""%string))
    by (apply nth_error_nth'; lia).
  unfold bind, remote.
  destruct (list_instances sdk _ _ _ (cloud w)) as [[items|e] env']; simpl;
    rewrite count_events_app; unfold count_events; simpl; lia.
Qed.

(** X1: a decorated call invokes its operation at least once and at
    most five times, whatever the operation does and however its
    behaviour depends on the world.  The invocations are counted in the
    trace: for an operation that leaves exactly one mark per
    invocation, the marks that a decorated call adds number between 1
    and 5 and are as many as the attempt number of the decorator; when
    the operation does not sleep itself, the call sleeps 2 once per
    invocation but the last.  In particular the count of an instance
    group whose locator parses requests between 1 and 5 listings. *)
Theorem retry_attempts_bounded {Env A} (p : event -> bool) (fn : M Env A)
  (w : World Env) :
  marks_each_invocation p fn ->
  (exists invocations,
      (1 <= invocations <= 5)%nat /\
      count_events p (trace (snd (retry fn w)))
        = (count_events p (trace w) + invocations)%nat /\
      snd (retry_statistics fn w) = invocations /\
      (never_sleeps fn ->
       sleeps (trace (snd (retry fn w))) =
       sleeps (trace w) ++ repeat 2 (invocations - 1))) /\
  (forall (sdk : Clients Env) url,
      (11 <= List.length (split "/" url))%nat ->
      exists listings,
        (1 <= listings <= 5)%nat /\
        count_events is_listing
          (trace (snd (get_instance_group_node_count sdk url w)))
        = (count_events is_listing (trace w) + listings)%nat).
Proof.
  intros Hmarks. split.
  - exists (snd (retry_statistics fn w)).
    unfold retry, retry_statistics.
    change (RETRY_ATTEMPTS - 1)%nat with 4%nat.
    pose proof (retry_loop_attempts fn 4 1 w) as Hb.
    pose proof (retry_loop_marks p fn 4 1 w Hmarks) as Hm.
    split; [lia|]. split; [lia|]. split; [reflexivity|].
    intros Hq. now apply retry_loop_sleeps.
  - intros sdk url Hlen.
    set (body := get_instance_group_node_count_body sdk url).
    exists (snd (retry_statistics body w)).
    unfold get_instance_group_node_count, retry, retry_statistics. fold body.
    change (RETRY_ATTEMPTS - 1)%nat with 4%nat.
    pose proof (retry_loop_attempts body 4 1 w) as Hb.
    pose proof (retry_loop_marks is_listing body 4 1 w
                  (listing_marks_each_invocation sdk url Hlen)) as Hm.
    split; lia.
Qed.

Lemma retry_attempts_bounded_witness :
  let fn := get_instance_group_node_count_body Fake.sdk (Fake.group_url "g1") in
  let w := Fake.start (Fake.p1 [("g1", [Fake.unavailable])]) in
  exists invocations,
    (1 <= invocations <= 5)%nat /\
    count_events is_listing (trace (snd (retry fn w))) = invocations /\
    invocations = 2%nat /\
    sleeps (trace (snd (retry fn w))) = repeat 2 (invocations - 1).
Proof.
  intros fn w.
  destruct (proj1 (retry_attempts_bounded is_listing fn w
                     (listing_marks_each_invocation Fake.sdk
                        (Fake.group_url "g1")
                        ltac:(vm_compute; lia))))
    as (n & Hn & Hcount & Hstat & Hsleeps).
  exists n. split; [exact Hn|]. split; [exact Hcount|].
  split; [rewrite <- Hstat; vm_compute; reflexivity|].
  exact (Hsleeps (get_instance_group_node_count_body_never_sleeps _ _)).
Defined.

Lemma retry_loop_cases {Env A} (fn : M Env A) n a w :
  exists k wk,
    (k <= n)%nat /\ fails_times fn k w wk /\
    snd (retry_loop n a fn w) = (a + k)%nat /\
    match fn wk with
    | (Ok v, w') => fst (retry_loop n a fn w) = (Ok v, w')
    | (Raise e, w') =>
        if isinstance_Exception e
        then k = n /\ fst (retry_loop n a fn w) = (Raise (RetryError e), w')
        else fst (retry_loop n a fn w) = (Raise e, w')
    end.
Proof.
  revert a w; induction n as [|n IH]; intros a w.
  - exists O, w. split; [lia|]. split; [constructor|].
    simpl. destruct (fn w) as [[v|e] w1]; simpl.
    + split; [lia|reflexivity].
    + destruct (isinstance_Exception e); simpl; (split; [lia|auto]).
  - destruct (fn w) as [[v|e] w1] eqn:Hfn.
    + exists O, w. split; [lia|]. split; [constructor|].
      simpl. rewrite Hfn. simpl. split; [lia|reflexivity].
    + destruct (isinstance_Exception e) eqn:He.
      * destruct (IH (S a) (sleep RETRY_WAIT w1))
          as (k & wk & Hk & Hf & Hn & Hcase).
        exists (S k), wk. split; [lia|].
        split; [exact (fails_more fn k w e w1 wk Hfn He Hf)|].
        rewrite (retry_loop_step _ _ _ _ _ _ Hfn He).
        split; [lia|].
        destruct (fn wk) as [[v|e'] w']; [exact Hcase|].
        destruct (isinstance_Exception e'); [|exact Hcase].
        destruct Hcase as [-> Hr]. auto.
      * exists O, w. split; [lia|]. split; [constructor|].
        simpl. rewrite Hfn, He. simpl. split; [lia|reflexivity].
Qed.

(** X2: every decorated call is one of three cases: after [k < 5]
    failed attempts the next attempt returns and the call returns its
    value; or it raises something that is not an [Exception], which the
    call lets through; or the fifth attempt raises an [Exception] and
    the call raises [RetryError] around it.  So what a decorated call
    raises is never a bare [Exception] of the operation: it is a
    [RetryError] or not an [Exception] at all. *)
Theorem retry_outcome {Env A} (fn : M Env A) (w : World Env) :
  (exists k wk,
      (k < 5)%nat /\ fails_times fn k w wk /\
      snd (retry_statistics fn w) = S k /\
      match fn wk with
      | (Ok v, w') => retry fn w = (Ok v, w')
      | (Raise e, w') =>
          if isinstance_Exception e
          then k = 4%nat /\ retry fn w = (Raise (RetryError e), w')
          else retry fn w = (Raise e, w')
      end) /\
  (forall e w',
      retry fn w = (Raise e, w') ->
      isinstance_Exception e = false \/ exists last, e = RetryError last).
Proof.
  unfold retry, retry_statistics.
  destruct (retry_loop_cases fn (RETRY_ATTEMPTS - 1) 1 w)
    as (k & wk & Hk & Hf & Hn & Hcase).
  unfold RETRY_ATTEMPTS in *. simpl in Hk. split.
  - exists k, wk. split; [lia|]. split; [exact Hf|]. split; [exact Hn|].
    exact Hcase.
  - intros e w' Hr. destruct (fn wk) as [[v|e'] w1].
    + rewrite Hcase in Hr. discriminate.
    + destruct (isinstance_Exception e') eqn:He.
      * destruct Hcase as [_ Hcase]. rewrite Hcase in Hr.
        inversion Hr. right. now exists e'.
      * rewrite Hcase in Hr. inversion Hr; subst. now left.
Qed.

Lemma retry_outcome_witness :
  let w := Fake.start (Fake.p1 []) in
  exists last,
    fst (get_instance_group_node_count Fake.sdk (Fake.group_url "g9") w)
    = Raise (RetryError last).
Proof.
  intros w.
  destruct (get_instance_group_node_count Fake.sdk (Fake.group_url "g9") w)
    as [r w'] eqn:Hrun.
  assert (Hr : r = Raise (RetryError (ApiError "not found"))).
  { change r with (fst (r, w')). rewrite <- Hrun. vm_compute. reflexivity. }
  subst r.
  destruct (proj2 (retry_outcome
                     (get_instance_group_node_count_body Fake.sdk
                        (Fake.group_url "g9")) w) _ _ Hrun)
    as [Hno|[last Hlast]]; [discriminate|].
  exists last. simpl. now rewrite Hlast.
Defined.

(** ** Failures that persist *)

Lemma retry_always_fails {Env A} (fn : M Env A) e evs :
  isinstance_Exception e = true ->
  always_fails fn e evs ->
  always_fails (retry fn) (RetryError e) (retry_events evs).
Proof.
  intros He Hfn w. unfold retry, retry_statistics.
  change (RETRY_ATTEMPTS - 1)%nat with 4%nat.
  do 4 (erewrite retry_loop_step; [|apply Hfn|exact He]).
  erewrite retry_loop_exhausted; [|apply Hfn|exact He].
  unfold retry_events, sleep, log, RETRY_ATTEMPTS. simpl.
  rewrite app_nil_r, <- !app_assoc. simpl.
  repeat (rewrite <- !app_assoc; simpl). reflexivity.
Qed.

Lemma remote_calls_retry_events evs :
  remote_calls (retry_events evs) = List.concat (repeat (remote_calls evs) 5).
Proof.
  unfold retry_events, RETRY_ATTEMPTS. simpl.
  repeat (rewrite remote_calls_app; simpl). now rewrite !app_nil_r.
Qed.

Lemma sleeps_retry_events evs :
  sleeps evs = [] -> sleeps (retry_events evs) = [2; 2; 2; 2].
Proof.
  intros H. unfold retry_events, RETRY_ATTEMPTS, RETRY_WAIT. simpl.
  repeat (rewrite sleeps_app; simpl; rewrite ?H; simpl). reflexivity.
Qed.

Lemma emissions_retry_events evs :
  emissions (retry_events evs) = List.concat (repeat (emissions evs) 5).
Proof.
  unfold retry_events, RETRY_ATTEMPTS. simpl.
  repeat (rewrite emissions_app; simpl). now rewrite !app_nil_r.
Qed.

(** X3: an operation that fails the same way in every world is invoked
    five times by a decorated call, which then fails the same way in
    every world too, with [RetryError]; so decorators multiply: under
    two of them the operation is invoked 25 times, with 24 sleeps of 2
    when it does not sleep itself. *)
Theorem retry_persistent_failure {Env A} (fn : M Env A) (e : exn)
  (evs : list event) :
  isinstance_Exception e = true ->
  always_fails fn e evs ->
  always_fails (retry fn) (RetryError e) (retry_events evs) /\
  remote_calls (retry_events evs) = List.concat (repeat (remote_calls evs) 5) /\
  always_fails (retry (retry fn)) (RetryError (RetryError e))
    (retry_events (retry_events evs)) /\
  remote_calls (retry_events (retry_events evs))
    = List.concat (repeat (remote_calls evs) 25) /\
  (sleeps evs = [] ->
   sleeps (retry_events evs) = repeat 2 4 /\
   sleeps (retry_events (retry_events evs)) = repeat 2 24).
Proof.
  intros He Hfn.
  pose proof (retry_always_fails fn e evs He Hfn) as H1.
  pose proof (retry_always_fails (retry fn) (RetryError e) _ eq_refl H1) as H2.
  split; [exact H1|]. split; [apply remote_calls_retry_events|].
  split; [exact H2|]. split.
  - rewrite !remote_calls_retry_events. simpl. now rewrite <- !app_assoc.
  - intros Hs. split; [now apply sleeps_retry_events|].
    pose proof (sleeps_retry_events evs Hs) as H4.
    unfold retry_events at 1. unfold RETRY_ATTEMPTS, RETRY_WAIT. simpl.
    repeat (rewrite sleeps_app; simpl; rewrite ?H4; simpl). reflexivity.
Qed.

Lemma retry_persistent_failure_witness :
  always_fails
    (get_instance_group_node_count (Steady.sdk Steady.pool 202)
       "zones/z/instanceGroupManagers/g")
    (RetryError IndexError) (retry_events []).
Proof.
  refine (proj1 (retry_persistent_failure
                   (get_instance_group_node_count_body
                      (Steady.sdk Steady.pool 202)
                      "zones/z/instanceGroupManagers/g")
                   IndexError [] eq_refl _)).
  intros [c t]. simpl. rewrite app_nil_r. reflexivity.
Defined.

Lemma get_instance_group_node_count_body_short_always {Env}
  (sdk : Clients Env) url :
  (List.length (split "/" url) < 11)%nat ->
  always_fails (get_instance_group_node_count_body sdk url) IndexError [].
Proof.
  intros Hlen [c t].
  rewrite (get_instance_group_node_count_body_short sdk url _ Hlen).
  simpl. now rewrite app_nil_r.
Qed.

Lemma get_instance_group_node_count_body_listing_fails {Env}
  (sdk : Clients Env) url project zone group e :
  nth_error (split "/" url) 6 = Some project ->
  nth_error (split "/" url) 8 = Some zone ->
  nth_error (split "/" url) 10 = Some group ->
  (forall env, list_instances sdk project zone group env = (Raise e, env)) ->
  always_fails (get_instance_group_node_count_body sdk url) e
    [Remote (ListInstances project zone group)].
Proof.
  intros H6 H8 H10 Hlist w.
  rewrite (get_instance_group_node_count_body_slots sdk _ _ _ _ _ H6 H8 H10).
  apply bind_raise. apply remote_ok, Hlist.
Qed.

Lemma get_node_pool_info_always_fails {Env} (sdk : Clients Env)
  project_id region cluster node_pool_name pool url rest e evs :
  let path := ("projects/" ++ project_id ++ "/locations/" ++ region
               ++ "/clusters/" ++ cluster ++ "/nodePools/"
               ++ node_pool_name)%string in
  (forall env, get_node_pool sdk path env = (Ok pool, env)) ->
  instance_group_urls pool = url :: rest ->
  isinstance_Exception e = true ->
  always_fails (get_instance_group_node_count_body sdk url) e evs ->
  always_fails
    (get_node_pool_info sdk project_id region cluster node_pool_name)
    (RetryError (RetryError e))
    (retry_events (Remote (GetNodePool path) :: retry_events evs)).
Proof.
  intros path Hpool Hurls He Hbody.
  apply retry_always_fails; [reflexivity|].
  intros w. unfold get_node_pool_info_body. fold path.
  rewrite (bind_ok _ _ _ _ _ (remote_ok _ _ _ _ _ (Hpool (cloud w)))).
  apply bind_raise. rewrite Hurls. simpl. apply bind_raise.
  unfold get_instance_group_node_count.
  rewrite (retry_always_fails _ _ _ He Hbody). simpl.
  now rewrite <- app_assoc.
Qed.

(** X4: a node pool whose first locator has fewer than 11 segments
    cannot be resolved, and the nested decorators make the failure
    slow: the node pool is fetched five times, the locator is parsed 25
    times without a single instance listing, the call sleeps 24 times
    2, and it raises [RetryError] around the [RetryError] of the count
    around the [IndexError]. *)
Theorem malformed_locator_costs {Env} (sdk : Clients Env)
  project_id region cluster node_pool_name pool url rest :
  let path := ("projects/" ++ project_id ++ "/locations/" ++ region
               ++ "/clusters/" ++ cluster ++ "/nodePools/"
               ++ node_pool_name)%string in
  (forall env, get_node_pool sdk path env = (Ok pool, env)) ->
  instance_group_urls pool = url :: rest ->
  (List.length (split "/" url) < 11)%nat ->
  forall w, exists evs,
    get_node_pool_info sdk project_id region cluster node_pool_name w
    = (Raise (RetryError (RetryError IndexError)),
       mkWorld (cloud w) (trace w ++ evs)) /\
    remote_calls evs = repeat (GetNodePool path) 5 /\
    sleeps evs = repeat 2 24.
Proof.
  intros path Hpool Hurls Hlen w.
  eexists. split.
  - apply (get_node_pool_info_always_fails sdk project_id region cluster
             node_pool_name pool url rest IndexError [] Hpool Hurls eq_refl).
    now apply get_instance_group_node_count_body_short_always.
  - split; reflexivity.
Qed.

Lemma malformed_locator_costs_witness :
  exists evs,
    get_node_pool_info (Steady.sdk Steady.broken_pool 202) "p" "r" "c" "np"
      Steady.start
    = (Raise (RetryError (RetryError IndexError)), mkWorld tt evs) /\
    remote_calls evs
      = repeat (GetNodePool "projects/p/locations/r/clusters/c/nodePools/np") 5 /\
    sleeps evs = repeat 2 24.
Proof.
  apply (malformed_locator_costs (Steady.sdk Steady.broken_pool 202)
           "p" "r" "c" "np" Steady.broken_pool
           "zones/z/instanceGroupManagers/g" []
           (fun env => eq_refl) eq_refl).
  vm_compute. lia.
Defined.

(** X5: when the listing of the first instance group of a node pool
    keeps raising, the resolution of the node pool fetches the node
    pool five times and asks for the listing 25 times, sleeps 24 times
    2, and raises [RetryError] around [RetryError] around the error of
    the listing. *)
Theorem failing_listing_costs {Env} (sdk : Clients Env)
  project_id region cluster node_pool_name pool url rest
  project zone group e :
  let path := ("projects/" ++ project_id ++ "/locations/" ++ region
               ++ "/clusters/" ++ cluster ++ "/nodePools/"
               ++ node_pool_name)%string in
  (forall env, get_node_pool sdk path env = (Ok pool, env)) ->
  instance_group_urls pool = url :: rest ->
  nth_error (split "/" url) 6 = Some project ->
  nth_error (split "/" url) 8 = Some zone ->
  nth_error (split "/" url) 10 = Some group ->
  (forall env, list_instances sdk project zone group env = (Raise e, env)) ->
  isinstance_Exception e = true ->
  forall w, exists evs,
    get_node_pool_info sdk project_id region cluster node_pool_name w
    = (Raise (RetryError (RetryError e)), mkWorld (cloud w) (trace w ++ evs)) /\
    List.length (filter (fun c => match c with GetNodePool _ => true
                                          | _ => false end)
                   (remote_calls evs)) = 5%nat /\
    List.length (filter (fun c => match c with ListInstances _ _ _ => true
                                          | _ => false end)
                   (remote_calls evs)) = 25%nat /\
    sleeps evs = repeat 2 24.
Proof.
  intros path Hpool Hurls H6 H8 H10 Hlist He w.
  eexists. split.
  - apply (get_node_pool_info_always_fails sdk project_id region cluster
             node_pool_name pool url rest e
             [Remote (ListInstances project zone group)] Hpool Hurls He).
    exact (get_instance_group_node_count_body_listing_fails sdk url _ _ _ e
             H6 H8 H10 Hlist).
  - repeat split; reflexivity.
Qed.

Lemma failing_listing_costs_witness :
  exists evs,
    get_node_pool_info (Steady.listing_down Steady.pool) "p" "r" "c" "np"
      Steady.start
    = (Raise (RetryError (RetryError (ApiError "backend error"))),
       mkWorld tt ([] ++ evs)) /\
    sleeps evs = repeat 2 24.
Proof.
  destruct (failing_listing_costs (Steady.listing_down Steady.pool)
              "p" "r" "c" "np" Steady.pool
              (instance_group_url "p" "z" "g") [] "p" "z" "g"
              (ApiError "backend error")
              (fun env => eq_refl) eq_refl eq_refl eq_refl eq_refl
              (fun env => eq_refl) eq_refl Steady.start)
    as (evs & Hrun & _ & _ & Hs).
  exists evs. split; [exact Hrun|exact Hs].
Defined.

(** X6: when the endpoint keeps answering with a status that is not a
    success, the emission hands the same batch to it five times, never
    prints the success line, and raises [RetryError] around the
    [HTTPError] of that status. *)
Theorem rejected_batch_is_sent_five_times {Env} (sdk : Clients Env)
  client project_id region cluster node_pool_name info response :
  let metrics :=
    make_metrics (make_tags project_id region cluster node_pool_name) info in
  (forall env, send_batch sdk client metrics env = (Ok response, env)) ->
  ~ 200 <= status response < 300 ->
  forall w, exists evs,
    send_metrics_to_newrelic sdk client project_id region cluster
      node_pool_name info w
    = (Raise (RetryError (HTTPError (status response))),
       mkWorld (cloud w) (trace w ++ evs)) /\
    emissions evs = repeat metrics 5 /\
    ~ In (Print MsgSent) evs /\
    sleeps evs = repeat 2 4.
Proof.
  intros metrics Hsend Hstatus w.
  exists (retry_events [Remote (SendBatch client metrics)]). split.
  - apply retry_always_fails; [reflexivity|].
    intros w0.
    rewrite (send_metrics_to_newrelic_body_answered sdk client project_id
               region cluster node_pool_name info w0 response (cloud w0)
               (Hsend (cloud w0))).
    cbv zeta. unfold ok.
    replace ((200 <=? status response) && (status response <? 300))
      with false by (symmetry; apply andb_false_iff; lia).
    reflexivity.
  - split; [reflexivity|]. split; [|reflexivity].
    unfold retry_events, RETRY_ATTEMPTS. simpl.
    intros H. repeat (destruct H as [H|H]; [discriminate|]). exact H.
Qed.

Lemma rejected_batch_is_sent_five_times_witness :
  let info := {| current_node_count := 2; max_node_count := 5;
                 node_usage_percent := PyFloat 40 |} in
  exists evs,
    send_metrics_to_newrelic (Steady.sdk Steady.pool 503) None "p" "r" "c"
      "np" info Steady.start
    = (Raise (RetryError (HTTPError 503)), mkWorld tt evs) /\
    List.length (emissions evs) = 5%nat.
Proof.
  intros info.
  destruct (rejected_batch_is_sent_five_times (Steady.sdk Steady.pool 503)
              None "p" "r" "c" "np" info {| status := 503 |}
              (fun env => eq_refl) ltac:(simpl; lia) Steady.start)
    as (evs & Hrun & Hem & _).
  exists evs. split; [exact Hrun|]. now rewrite Hem.
Defined.

(** ** Splitting *)

Lemma string_app_assoc (a b c : string) :
  ((a ++ b) ++ c = a ++ (b ++ c))%string.
Proof. induction a as [|x a IH]; simpl; [reflexivity|now rewrite IH]. Qed.

Lemma string_app_nil_r (a : string) : (a ++ "" = a)%string.
Proof. induction a as [|x a IH]; simpl; [reflexivity|now rewrite IH]. Qed.

Lemma occurrences_app c (a b : string) :
  occurrences c (a ++ b)%string = (occurrences c a + occurrences c b)%nat.
Proof.
  induction a as [|x a IH]; simpl; [reflexivity|].
  destruct (Ascii.eqb x c); simpl; now rewrite IH.
Qed.

Lemma split_from_length sep current s :
  List.length (split_from sep current s) = S (occurrences sep s).
Proof.
  revert current; induction s as [|c s IH]; intros current; simpl;
    [reflexivity|].
  destruct (Ascii.eqb c sep); simpl; now rewrite IH.
Qed.

Lemma join_cons sep p rest :
  rest <> [] -> join sep (p :: rest) = (p ++ String sep (join sep rest))%string.
Proof. destruct rest; [congruence|reflexivity]. Qed.

Lemma split_from_join sep current s :
  join sep (split_from sep current s) = (current ++ s)%string.
Proof.
  revert current; induction s as [|c s IH]; intros current; simpl.
  - now rewrite string_app_nil_r.
  - destruct (Ascii.eqb_spec c sep) as [->|_].
    + rewrite join_cons, IH; [reflexivity|].
      intros H. apply (f_equal (@List.length string)) in H.
      rewrite split_from_length in H. discriminate.
    + rewrite IH, string_app_assoc. reflexivity.
Qed.

Lemma split_from_segments sep current s :
  occurrences sep current = O ->
  Forall (fun segment => occurrences sep segment = O)
    (split_from sep current s).
Proof.
  revert current; induction s as [|c s IH]; intros current Hc; simpl.
  - constructor; [exact Hc|constructor].
  - destruct (Ascii.eqb c sep) eqn:E.
    + constructor; [exact Hc|]. now apply IH.
    + apply IH. rewrite occurrences_app, Hc. simpl. now rewrite E.
Qed.

Lemma split_from_plain sep current a :
  occurrences sep a = O ->
  split_from sep current a = [(current ++ a)%string].
Proof.
  revert current; induction a as [|c a IH]; intros current; simpl.
  - now rewrite string_app_nil_r.
  - destruct (Ascii.eqb c sep); [discriminate|].
    intros H. rewrite (IH _ H), string_app_assoc. reflexivity.
Qed.

Lemma split_from_app sep current a b :
  occurrences sep a = O ->
  split_from sep current (a ++ String sep b)
  = (current ++ a)%string :: split_from sep "" b.
Proof.
  revert current; induction a as [|c a IH]; intros current; simpl.
  - rewrite Ascii.eqb_refl, string_app_nil_r. reflexivity.
  - destruct (Ascii.eqb c sep); [discriminate|].
    intros H. rewrite (IH _ H), string_app_assoc. reflexivity.
Qed.

(** X7: splitting a string yields one segment more than it has
    separators (so at least one, also for the empty string), no segment
    holds the separator, and joining the segments with the separator
    gives the string back. *)
Theorem split_join (sep : ascii) (s : string) :
  join sep (split sep s) = s /\
  List.length (split sep s) = S (occurrences sep s) /\
  Forall (fun segment => occurrences sep segment = O) (split sep s).
Proof.
  unfold split. split; [apply split_from_join|].
  split; [apply split_from_length|now apply split_from_segments].
Qed.

(** X8: for a project, a zone and a group name without a slash, the
    locator that the cluster API builds from them has exactly 11
    segments, and the count asks for the listing of exactly that
    project, zone and group. *)
Theorem locator_round_trip {Env} (sdk : Clients Env)
  (project zone group : string) (w : World Env) :
  occurrences "/" project = O ->
  occurrences "/" zone = O ->
  occurrences "/" group = O ->
  split "/" (instance_group_url project zone group)
  = ["https:"; ""; "www.googleapis.com"; "compute"; "v1"; "projects";
     project; "zones"; zone; "instanceGroupManagers"; group]%string /\
  get_instance_group_node_count_body sdk
    (instance_group_url project zone group) w
  = bind (remote (ListInstances project zone group)
            (list_instances sdk project zone group))
         (fun response => ret (len_or_zero response)) w.
Proof.
  intros Hp Hz Hg.
  assert (Hsplit :
            split "/" (instance_group_url project zone group)
            = ["https:"; ""; "www.googleapis.com"; "compute"; "v1";
               "projects"; project; "zones"; zone;
               "instanceGroupManagers"; group]%string).
  { unfold split, instance_group_url. simpl.
    rewrite (split_from_app "/" "" project _ Hp). simpl.
    rewrite (split_from_app "/" "" zone _ Hz). simpl.
    rewrite (split_from_plain "/" "" group Hg). reflexivity. }
  split; [exact Hsplit|].
  apply get_instance_group_node_count_body_slots; rewrite Hsplit; reflexivity.
Qed.

Lemma locator_round_trip_witness :
  split "/" (instance_group_url "p1" "us-central1-a" "g1")
  = ["https:"; ""; "www.googleapis.com"; "compute"; "v1"; "projects";
     "p1"; "zones"; "us-central1-a"; "instanceGroupManagers"; "g1"]%string.
Proof.
  exact (proj1 (locator_round_trip Fake.sdk "p1" "us-central1-a" "g1"
                  (Fake.start (Fake.p1 [])) eq_refl eq_refl eq_refl)).
Defined.

(** X9: with a non-empty [GCP_PROJECT_IDS] the program always runs the
    traversal, never the configuration message: over the
    comma-separated segments of the value as they are, one more than
    there are commas, empty segments included, and in the region of
    [GCP_REGION], which defaults to us-central1. *)
Theorem main_runs_traversal {Env} (sdk : Clients Env)
  (environ : string -> option string) (ids : string) (w : World Env) :
  environ "GCP_PROJECT_IDS"%string = Some ids ->
  ids <> ""%string ->
  main sdk environ w
  = list_clusters_and_node_pools_info_and_send_metrics sdk environ
      (split "," ids)
      (match environ "GCP_REGION"%string with
       | Some region => region
       | None => "us-central1"%string
       end) w /\
  List.length (split "," ids) = S (occurrences "," ids).
Proof.
  intros Hids Hne. split; [|apply split_from_length].
  unfold main, getenv_default. rewrite Hids.
  destruct ids as [|c ids]; [congruence|].
  destruct (split "," (String c ids)) as [|p ps] eqn:Hs; [|reflexivity].
  apply (f_equal (@List.length string)) in Hs. unfold split in Hs.
  rewrite split_from_length in Hs. discriminate.
Qed.

Lemma main_runs_traversal_witness :
  main Fake.sdk Fake.environ (Fake.start (Fake.p1 []))
  = list_clusters_and_node_pools_info_and_send_metrics Fake.sdk Fake.environ
      ["p1"%string] "us-central1" (Fake.start (Fake.p1 [])).
Proof.
  apply (main_runs_traversal Fake.sdk Fake.environ "p1"
           (Fake.start (Fake.p1 [])) eq_refl).
  discriminate.
Defined.

(** ** The mapping of the discovery *)

Lemma dict_get_set_same {V} (k : string) (v : V) (d : dict V) :
  dict_get k (dict_set k v d) = Some v.
Proof.
  induction d as [|[k' v'] d IH]; simpl.
  - now rewrite String.eqb_refl.
  - destruct (String.eqb k' k) eqn:E; simpl; rewrite E; [reflexivity|exact IH].
Qed.

Lemma dict_get_set_other {V} (k k1 : string) (v : V) (d : dict V) :
  k1 <> k -> dict_get k1 (dict_set k v d) = dict_get k1 d.
Proof.
  intros Hne. induction d as [|[k' v'] d IH]; simpl.
  - destruct (String.eqb_spec k k1); [congruence|reflexivity].
  - destruct (String.eqb_spec k' k) as [->|_]; simpl.
    + destruct (String.eqb_spec k k1); [congruence|reflexivity].
    + now rewrite IH.
Qed.

Lemma dict_get_In {V} (k : string) (v : V) (d : dict V) :
  dict_get k d = Some v -> In (k, v) d.
Proof.
  induction d as [|[k' v'] d IH]; simpl; [discriminate|].
  destruct (String.eqb_spec k' k) as [->|_].
  - intros H; inversion H. now left.
  - intros H. right. now apply IH.
Qed.

Lemma dict_set_NoDup {V} (k : string) (v : V) (d : dict V) :
  NoDup (keys d) -> NoDup (keys (dict_set k v d)).
Proof.
  induction d as [|[k' v'] d IH]; simpl; intros H.
  - repeat constructor. intros [].
  - inversion H as [|? ? Hnotin Hnd]; subst.
    destruct (String.eqb_spec k' k) as [->|Hne]; simpl; [exact H|].
    constructor; [|now apply IH].
    fold (keys (dict_set k v d)). rewrite keys_dict_set.
    destruct (mem k (keys d)); [exact Hnotin|].
    rewrite in_app_iff. intros [Hin|[E|[]]]; [now apply Hnotin|congruence].
Qed.

Lemma fold_record_NoDup cls acc :
  NoDup (keys acc) -> NoDup (keys (fold_left record_listing cls acc)).
Proof.
  revert acc; induction cls as [|cl cls IH]; intros acc H; simpl; [exact H|].
  apply IH. unfold record_listing. now apply dict_set_NoDup.
Qed.

Lemma dict_get_fold_other k cls acc :
  (forall cl, In cl cls -> cluster_name (fst cl) <> k) ->
  dict_get k (fold_left record_listing cls acc) = dict_get k acc.
Proof.
  revert acc; induction cls as [|cl cls IH]; intros acc H; simpl;
    [reflexivity|].
  rewrite IH by (intros cl' Hin; apply H; now right).
  unfold record_listing. apply dict_get_set_other.
  intros E. apply (H cl); [now left|now symmetry].
Qed.

(** X10: the mapping of the discovery never holds a cluster name
    twice; when the API returns a name more than once, the name is
    mapped to the node pools of the last cluster of that name. *)
Theorem discovery_keys_are_distinct {Env} (sdk : Clients Env)
  project_id region w clusters env1 listings w2 :
  let parent := ("projects/" ++ project_id ++ "/locations/" ++ region)%string in
  list_clusters sdk parent (cloud w) = (Ok clusters, env1) ->
  node_pool_listings sdk project_id region clusters
    (mkWorld env1 (trace w ++ [Remote (ListClusters parent)]))
    = (Ok listings, w2) ->
  exists d,
    get_all_clusters_and_node_pools sdk project_id region w = (Ok d, w2) /\
    NoDup (keys d) /\
    (forall before c l after,
        combine clusters listings = before ++ (c, l) :: after ->
        (forall cl, In cl after -> cluster_name (fst cl) <> cluster_name c) ->
        In (cluster_name c, map name l) d /\
        dict_get (cluster_name c) d = Some (map name l)).
Proof.
  intros parent Hclusters Hlistings.
  exists (fold_left record_listing (combine clusters listings) []).
  split; [|split].
  - apply retry_ok. unfold get_all_clusters_and_node_pools_body. fold parent.
    rewrite (bind_ok _ _ _ _ _ (remote_ok _ _ _ _ _ Hclusters)).
    rewrite node_pools_of_clusters_listings.
    now rewrite (bind_ok _ _ _ _ _ Hlistings).
  - apply fold_record_NoDup. constructor.
  - intros before c l after Hsplit Hlast.
    assert (Hget : dict_get (cluster_name c)
                     (fold_left record_listing (combine clusters listings) [])
                   = Some (map name l)).
    { rewrite Hsplit, fold_left_app. simpl.
      rewrite (dict_get_fold_other _ _ _ Hlast).
      unfold record_listing at 1. simpl. apply dict_get_set_same. }
    split; [now apply dict_get_In|exact Hget].
Qed.

Lemma discovery_keys_are_distinct_witness :
  exists d w2,
    get_all_clusters_and_node_pools Twice.sdk "p" "r" Twice.start
      = (Ok d, w2) /\
    NoDup (keys d) /\
    In ("c1", ["third"; "fourth"])%string d /\
    dict_get "c1" d = Some ["third"; "fourth"]%string.
Proof.
  destruct (discovery_keys_are_distinct Twice.sdk "p" "r" Twice.start
              Twice.clusters O Twice.listings _ eq_refl eq_refl)
    as (d & Hrun & Hnd & Hlast).
  exists d. eexists. split; [exact Hrun|]. split; [exact Hnd|].
  apply (Hlast [ ({| cluster_name := "c1" |}, [Twice.pool_named "first"]);
                 ({| cluster_name := "c2" |}, [Twice.pool_named "second"]) ]
           {| cluster_name := "c1" |}
           [Twice.pool_named "third"; Twice.pool_named "fourth"] []
           eq_refl).
  intros cl [].
Defined.

(** ** What a resolved node pool looks like *)

Lemma retry_ok_inv {Env A} (fn : M Env A) w v w' :
  retry fn w = (Ok v, w') -> exists w0, fn w0 = (Ok v, w').
Proof.
  unfold retry, retry_statistics.
  destruct (retry_loop_cases fn (RETRY_ATTEMPTS - 1) 1 w)
    as (k & wk & _ & _ & _ & Hcase).
  intros Hr. exists wk. destruct (fn wk) as [[v1|e] w1].
  - now rewrite Hcase in Hr.
  - destruct (isinstance_Exception e).
    + destruct Hcase as [_ Hcase]. rewrite Hcase in Hr. discriminate.
    + rewrite Hcase in Hr. discriminate.
Qed.

Lemma len_or_zero_nonneg response : 0 <= len_or_zero response.
Proof. destruct response as [[|x l]|]; simpl; lia. Qed.

Lemma get_instance_group_node_count_nonneg {Env} (sdk : Clients Env)
  url w n w' :
  get_instance_group_node_count sdk url w = (Ok n, w') -> 0 <= n.
Proof.
  intros H. apply retry_ok_inv in H as (w0 & H).
  unfold get_instance_group_node_count_body in H.
  apply bind_inv_ok in H as (project & w1 & _ & H).
  apply bind_inv_ok in H as (zone & w2 & _ & H).
  apply bind_inv_ok in H as (group & w3 & _ & H).
  apply bind_inv_ok in H as (response & w4 & _ & H).
  inversion H. apply len_or_zero_nonneg.
Qed.

Lemma sum_node_counts_grows {Env} (sdk : Clients Env) urls acc w t w' :
  sum_node_counts sdk urls acc w = (Ok t, w') -> acc <= t.
Proof.
  revert acc w; induction urls as [|url urls IH]; intros acc w; simpl.
  - intros H; inversion H. lia.
  - intros H. apply bind_inv_ok in H as (n & w1 & Hn & H).
    apply get_instance_group_node_count_nonneg in Hn.
    apply IH in H. lia.
Qed.

(** X11: whenever the resolution of a node pool returns, after
    however many attempts, its record agrees with itself: the usage is
    the integer 0 under the ceiling 0 and current / max * 100
    otherwise; the node count is not negative, and neither is the usage
    when the ceiling is not negative. *)
Theorem node_pool_info_invariant {Env} (sdk : Clients Env)
  project_id region cluster node_pool_name w info w' :
  get_node_pool_info sdk project_id region cluster node_pool_name w
    = (Ok info, w') ->
  consistent info /\
  0 <= current_node_count info /\
  (0 <= max_node_count info ->
   (0 <= number_value (node_usage_percent info))%Q).
Proof.
  intros H. apply retry_ok_inv in H as (w0 & H).
  unfold get_node_pool_info_body in H.
  apply bind_inv_ok in H as (pool & w1 & _ & H).
  apply bind_inv_ok in H as (current & w2 & Hsum & H).
  apply bind_inv_ok in H as (usage & w3 & Husage & H).
  rewrite usage_percent_ok in Husage.
  inversion Husage; subst usage w3. inversion H; subst info w'.
  apply sum_node_counts_grows in Hsum.
  unfold consistent. cbn [current_node_count max_node_count node_usage_percent].
  split; [reflexivity|]. split; [exact Hsum|].
  intros Hmax.
  destruct (autoscaling_max_node_count pool) as [|m|m]; simpl; try lia.
  - unfold Qle; simpl; lia.
  - unfold Qle, Qdiv, Qmult, Qinv, inject_Z. simpl. lia.
Qed.

Lemma node_pool_info_invariant_witness :
  let w := Fake.start (Fake.p1 [("g1", [Fake.unavailable])]) in
  exists info w',
    get_node_pool_info Fake.sdk "p1" "us-central1" "c1" "np1" w
      = (Ok info, w') /\
    consistent info /\ 0 <= current_node_count info.
Proof.
  intros w.
  exists {| current_node_count := 7; max_node_count := 10;
            node_usage_percent :=
              PyFloat (inject_Z 7 / inject_Z 10 * inject_Z 100)%Q |}.
  exists (snd (get_node_pool_info Fake.sdk "p1" "us-central1" "c1" "np1" w)).
  assert (Hrun : get_node_pool_info Fake.sdk "p1" "us-central1" "c1" "np1" w
                 = (Ok {| current_node_count := 7; max_node_count := 10;
                          node_usage_percent :=
                            PyFloat (inject_Z 7 / inject_Z 10
                                     * inject_Z 100)%Q |},
                    snd (get_node_pool_info Fake.sdk "p1" "us-central1"
                           "c1" "np1" w)))
    by (vm_compute; reflexivity).
  split; [exact Hrun|].
  destruct (node_pool_info_invariant Fake.sdk "p1" "us-central1" "c1" "np1"
              w _ _ Hrun) as (Hc & Hn & _).
  split; [exact Hc|exact Hn].
Defined.

(** X12: the guard of the usage is on a ceiling different from 0, not
    on a positive one: under a negative ceiling the quotient is taken,
    and for a positive node count the usage is negative, where the
    formula of the data model gives 0. *)
Theorem usage_percent_negative_ceiling {Env} (current maximum : Z)
  (w : World Env) :
  maximum < 0 -> 0 < current ->
  exists q,
    usage_percent current maximum w = (Ok (PyFloat q), w) /\
    (q < 0)%Q /\
    (percent current maximum == 0)%Q.
Proof.
  intros Hm Hc.
  exists (inject_Z current / inject_Z maximum * inject_Z 100)%Q.
  rewrite usage_percent_ok.
  replace (maximum =? 0) with false by (symmetry; apply Z.eqb_neq; lia).
  split; [reflexivity|]. split.
  - destruct maximum as [|m|m]; try lia.
    unfold Qlt, Qdiv, Qmult, Qinv, inject_Z. simpl. lia.
  - unfold percent.
    replace (0 <? maximum) with false by (symmetry; apply Z.ltb_ge; lia).
    reflexivity.
Qed.

Lemma usage_percent_negative_ceiling_witness :
  exists q,
    usage_percent 3 (-1) Steady.start = (Ok (PyFloat q), Steady.start) /\
    (q < 0)%Q.
Proof.
  destruct (usage_percent_negative_ceiling 3 (-1) Steady.start
              ltac:(lia) ltac:(lia)) as (q & Hrun & Hq & _).
  exists q. split; [exact Hrun|exact Hq].
Defined.

(** ** A run on services that answer *)

Lemma succeeds_ret {Env A} (v : A) : succeeds_with (@ret Env A v) v [].
Proof.
  intros w. exists w. split; [reflexivity|]. now rewrite app_nil_r.
Qed.

Lemma succeeds_bind {Env A B} (m : M Env A) (k : A -> M Env B) a b ba bb :
  succeeds_with m a ba -> succeeds_with (k a) b bb ->
  succeeds_with (bind m k) b (ba ++ bb).
Proof.
  intros Hm Hk w.
  destruct (Hm w) as (w1 & Hrun1 & He1 & Hs1).
  destruct (Hk w1) as (w2 & Hrun2 & He2 & Hs2).
  exists w2. split; [now rewrite (bind_ok _ _ _ _ _ Hrun1)|].
  split; [now rewrite He2, He1, app_assoc|congruence].
Qed.

Lemma succeeds_retry {Env A} (fn : M Env A) v batches :
  succeeds_with fn v batches -> succeeds_with (retry fn) v batches.
Proof.
  intros Hfn w. destruct (Hfn w) as (w' & Hrun & He & Hs).
  exists w'. split; [now apply retry_ok|auto].
Qed.

Lemma succeeds_print {Env} (m : message) :
  succeeds_with (@print Env m) tt [].
Proof.
  intros w. exists (log (Print m) w). split; [reflexivity|]. simpl.
  rewrite emissions_app, sleeps_app. simpl. now rewrite !app_nil_r.
Qed.

Lemma succeeds_remote {Env A} (c : call) (oracle : Env -> result A * Env)
  v batches :
  (forall env, fst (oracle env) = Ok v) ->
  emissions [Remote c] = batches ->
  succeeds_with (remote c oracle) v batches.
Proof.
  intros Horacle Hc w. unfold remote.
  specialize (Horacle (cloud w)).
  destruct (oracle (cloud w)) as [r env']. simpl in Horacle. subst r.
  eexists. split; [reflexivity|]. cbn [trace].
  rewrite emissions_app, sleeps_app, Hc. split; [reflexivity|].
  simpl. now rewrite app_nil_r.
Qed.

Lemma succeeds_for_each {Env X} (body : X -> M Env unit)
  (batches : X -> list (list GaugeMetric)) xs :
  (forall x, In x xs -> succeeds_with (body x) tt (batches x)) ->
  succeeds_with (for_each xs body) tt (flat_map batches xs).
Proof.
  induction xs as [|x xs IH]; intros H; simpl.
  - apply succeeds_ret.
  - apply succeeds_bind with (a := tt).
    + apply H. now left.
    + apply IH. intros y Hy. apply H. now right.
Qed.

Section Answering.

Context {Env : Type}.
Variable sdk : Clients Env.
Variable clusters_of : string -> list Cluster.
Variable pools_of : string -> list NodePool.
Variable pool_at : string -> NodePool.
Variable items_of : string -> string -> string -> option (list string).

Hypothesis clusters_answer :
  forall parent env, fst (list_clusters sdk parent env) = Ok (clusters_of parent).
Hypothesis pools_answer :
  forall parent env, fst (list_node_pools sdk parent env) = Ok (pools_of parent).
Hypothesis pool_answers :
  forall path env, fst (get_node_pool sdk path env) = Ok (pool_at path).
Hypothesis items_answer :
  forall project zone group env,
    fst (list_instances sdk project zone group env)
    = Ok (items_of project zone group).
Hypothesis endpoint_accepts :
  forall key metrics env, exists response,
    fst (send_batch sdk key metrics env) = Ok response /\
    200 <= status response < 300.
Hypothesis locators_parse :
  forall path url,
    In url (instance_group_urls (pool_at path)) ->
    (11 <= List.length (split "/" url))%nat.

Lemma answering_count url :
  (11 <= List.length (split "/" url))%nat ->
  succeeds_with (get_instance_group_node_count sdk url)
    (expected_count items_of url) [].
Proof.
  intros Hlen. apply succeeds_retry. intros w.
  rewrite (get_instance_group_node_count_body_slots sdk url
             (nth 6 (split "/" url) ""%string)
             (nth 8 (split "/" url) ""%string)
             (nth 10 (split "/" url) ""%string))
    by (apply nth_error_nth'; lia).
  revert w. eapply (succeeds_bind _ _ _ _ [] []).
  - apply succeeds_remote; [apply items_answer|reflexivity].
  - apply succeeds_ret.
Qed.

Lemma answering_sum urls acc :
  (forall url, In url urls -> (11 <= List.length (split "/" url))%nat) ->
  succeeds_with (sum_node_counts sdk urls acc)
    (acc + total (map (expected_count items_of) urls)) [].
Proof.
  revert acc; induction urls as [|url urls IH]; intros acc H; simpl.
  - rewrite Z.add_0_r. apply succeeds_ret.
  - eapply (succeeds_bind _ _ _ _ [] []).
    + apply answering_count, H. now left.
    + replace (acc + (expected_count items_of url
                      + total (map (expected_count items_of) urls)))
        with (acc + expected_count items_of url
              + total (map (expected_count items_of) urls)) by lia.
      apply IH. intros u Hu. apply H. now right.
Qed.

Lemma answering_info project_id region cluster node_pool_name :
  succeeds_with
    (get_node_pool_info sdk project_id region cluster node_pool_name)
    (expected_info pool_at items_of project_id region cluster node_pool_name)
    [].
Proof.
  apply succeeds_retry. unfold get_node_pool_info_body.
  eapply (succeeds_bind _ _ _ _ [] []).
  { apply succeeds_remote; [apply pool_answers|reflexivity]. }
  eapply (succeeds_bind _ _ _ _ [] []).
  { apply answering_sum, locators_parse. }
  eapply (succeeds_bind _ _ _ _ [] []).
  { intros w. rewrite usage_percent_ok. exists w.
    split; [reflexivity|]. now rewrite app_nil_r. }
  apply succeeds_ret.
Qed.

Lemma answering_send client project_id region cluster node_pool_name info :
  succeeds_with
    (send_metrics_to_newrelic sdk client project_id region cluster
       node_pool_name info) tt
    [make_metrics (make_tags project_id region cluster node_pool_name) info].
Proof.
  apply succeeds_retry. intros w.
  set (metrics :=
         make_metrics (make_tags project_id region cluster node_pool_name) info).
  destruct (endpoint_accepts client metrics (cloud w)) as (response & Hr & Hs).
  destruct (send_batch sdk client metrics (cloud w)) as [r env'] eqn:Hsend.
  simpl in Hr. subst r.
  rewrite (send_metrics_to_newrelic_body_answered sdk client project_id
             region cluster node_pool_name info w response env' Hsend).
  cbv zeta. unfold ok.
  replace ((200 <=? status response) && (status response <? 300))
    with true by (symmetry; apply andb_true_iff; lia).
  eexists. split; [reflexivity|]. simpl.
  rewrite !emissions_app, !sleeps_app. simpl.
  now rewrite !app_nil_r.
Qed.

Lemma answering_discovery_loop project_id region clusters acc :
  succeeds_with (node_pools_of_clusters sdk project_id region clusters acc)
    (fold_left record_listing
       (map (expected_listing pools_of project_id region) clusters) acc) [].
Proof.
  revert acc; induction clusters as [|c cs IH]; intros acc; simpl.
  - apply succeeds_ret.
  - eapply (succeeds_bind _ _ _ _ [] []).
    + apply succeeds_remote; [apply pools_answer|reflexivity].
    + apply IH.
Qed.

Lemma answering_discovery project_id region :
  succeeds_with (get_all_clusters_and_node_pools sdk project_id region)
    (expected_mapping clusters_of pools_of project_id region) [].
Proof.
  apply succeeds_retry. unfold get_all_clusters_and_node_pools_body.
  eapply (succeeds_bind _ _ _ _ [] []).
  - apply succeeds_remote; [apply clusters_answer|reflexivity].
  - apply answering_discovery_loop.
Qed.

Lemma answering_node_pool client project_id region cluster node_pool_name :
  succeeds_with
    (visit_node_pool sdk client project_id region cluster node_pool_name) tt
    [expected_batch pool_at items_of project_id region cluster node_pool_name].
Proof.
  unfold visit_node_pool.
  eapply (succeeds_bind _ _ _ _ [] [_]); [apply answering_info|].
  eapply (succeeds_bind _ _ _ _ [] [_]); [apply succeeds_print|].
  apply answering_send.
Qed.

Lemma answering_cluster client project_id region item :
  succeeds_with (visit_cluster sdk client project_id region item) tt
    (map (expected_batch pool_at items_of project_id region (fst item))
       (snd item)).
Proof.
  destruct item as [cluster node_pools]. unfold visit_cluster. cbn [fst snd].
  eapply (succeeds_bind _ _ _ _ [] _); [apply succeeds_print|].
  replace (map (expected_batch pool_at items_of project_id region cluster)
             node_pools)
    with (flat_map
            (fun np => [expected_batch pool_at items_of project_id region
                          cluster np]) node_pools)
    by (induction node_pools as [|np nps IH]; simpl;
        [reflexivity|now rewrite IH]).
  cbv beta.
  apply (succeeds_for_each
           (visit_node_pool sdk client project_id region cluster)
           (fun np => [expected_batch pool_at items_of project_id region
                         cluster np]) node_pools).
  intros np _. apply answering_node_pool.
Qed.

Lemma answering_run (environ : string -> option string) c key
  project_ids region :
  environ "NEW_RELIC_API_KEY"%string = Some (String c key) ->
  succeeds_with
    (list_clusters_and_node_pools_info_and_send_metrics sdk environ
       project_ids region) tt
    (expected_batches clusters_of pools_of pool_at items_of project_ids region).
Proof.
  intros Hkey. apply succeeds_retry. intros w.
  rewrite (pass_with_key sdk environ project_ids region w c key Hkey).
  revert w. unfold expected_batches.
  apply succeeds_for_each. intros project_id _. unfold visit_project.
  eapply (succeeds_bind _ _ _ _ [] _); [apply succeeds_print|].
  eapply (succeeds_bind _ _ _ _ [] _); [apply answering_discovery|].
  apply succeeds_for_each. intros item _. apply answering_cluster.
Qed.

End Answering.

(** X13: when the API key is set, every service answers every call
    (the answers may depend on the arguments of the call but not on
    what happened before), the endpoint accepts every batch and every
    locator has at least 11 segments, a run returns normally, never
    sleeps, and sends exactly one batch per node pool of the mappings
    of the projects, in the order of the projects, of the clusters in
    each mapping and of the node pools of each cluster; the batch of a
    node pool carries its own counts. *)
Theorem answering_cloud_run {Env} (sdk : Clients Env)
  (environ : string -> option string)
  (clusters_of : string -> list Cluster)
  (pools_of : string -> list NodePool)
  (pool_at : string -> NodePool)
  (items_of : string -> string -> string -> option (list string))
  (project_ids : list string) (region : string) (w : World Env) :
  (exists c key, environ "NEW_RELIC_API_KEY"%string = Some (String c key)) ->
  (forall parent env,
      fst (list_clusters sdk parent env) = Ok (clusters_of parent)) ->
  (forall parent env,
      fst (list_node_pools sdk parent env) = Ok (pools_of parent)) ->
  (forall path env, fst (get_node_pool sdk path env) = Ok (pool_at path)) ->
  (forall project zone group env,
      fst (list_instances sdk project zone group env)
      = Ok (items_of project zone group)) ->
  (forall key metrics env, exists response,
      fst (send_batch sdk key metrics env) = Ok response /\
      200 <= status response < 300) ->
  (forall path url,
      In url (instance_group_urls (pool_at path)) ->
      (11 <= List.length (split "/" url))%nat) ->
  exists w',
    list_clusters_and_node_pools_info_and_send_metrics sdk environ
      project_ids region w = (Ok tt, w') /\
    emissions (trace w') =
      emissions (trace w)
      ++ expected_batches clusters_of pools_of pool_at items_of
           project_ids region /\
    sleeps (trace w') = sleeps (trace w).
Proof.
  intros (c & key & Hkey) Hc Hl Hp Hi Hs Hu.
  exact (answering_run sdk clusters_of pools_of pool_at items_of
           Hc Hl Hp Hi Hs Hu environ c key project_ids region Hkey w).
Qed.

Lemma answering_cloud_run_witness :
  exists w',
    list_clusters_and_node_pools_info_and_send_metrics
      (Steady.sdk Steady.pool 202) Fake.environ ["p"; "q"]%string "r"
      Steady.start = (Ok tt, w') /\
    emissions (trace w') =
      [ make_metrics (make_tags "p" "r" "c" "np")
          {| current_node_count := 2; max_node_count := 5;
             node_usage_percent :=
               PyFloat (inject_Z 2 / inject_Z 5 * inject_Z 100)%Q |};
        make_metrics (make_tags "q" "r" "c" "np")
          {| current_node_count := 2; max_node_count := 5;
             node_usage_percent :=
               PyFloat (inject_Z 2 / inject_Z 5 * inject_Z 100)%Q |} ] /\
    sleeps (trace w') = [].
Proof.
  apply (answering_cloud_run (Steady.sdk Steady.pool 202) Fake.environ
           (fun _ => [ {| cluster_name := "c" |} ])
           (fun _ => [Steady.pool])
           (fun _ => Steady.pool)
           (fun _ _ _ => Some ["i1"; "i2"]%string)
           ["p"; "q"]%string "r" Steady.start).
  - exists "k"%char, "ey"%string. reflexivity.
  - reflexivity.
  - reflexivity.
  - reflexivity.
  - reflexivity.
  - intros key metrics env. exists {| status := 202 |}.
    split; [reflexivity|simpl; lia].
  - intros path url [<-|[]]. vm_compute. lia.
Defined.

(** ** What is ever sent *)

Lemma sound_trace_log {Env} (ev : event) (w : World Env) :
  sound_trace (trace w) ->
  Forall sound_batch (emissions [ev]) ->
  sound_trace (trace (log ev w)).
Proof.
  unfold sound_trace. simpl. rewrite emissions_app.
  intros H1 H2. apply Forall_app. now split.
Qed.

Lemma keeps_ret {Env A} (v : A) (Q : A -> Prop) :
  Q v -> keeps (@ret Env A v) Q.
Proof.
  intros HQ w Hw. split; [exact Hw|]. intros v' H. inversion H. now subst.
Qed.

Lemma keeps_bind {Env A B} (m : M Env A) (k : A -> M Env B)
  (Q : A -> Prop) (R : B -> Prop) :
  keeps m Q -> (forall a, Q a -> keeps (k a) R) -> keeps (bind m k) R.
Proof.
  intros Hm Hk w Hw. destruct (Hm w Hw) as [Hs HQ]. unfold bind.
  destruct (m w) as [[a|e] w1]; simpl in *.
  - exact (Hk a (HQ a eq_refl) w1 Hs).
  - split; [exact Hs|]. intros v H. discriminate.
Qed.

Lemma keeps_weaken {Env A} (m : M Env A) (Q R : A -> Prop) :
  keeps m Q -> (forall a, Q a -> R a) -> keeps m R.
Proof.
  intros Hm HQR w Hw. destruct (Hm w Hw) as [Hs HQ].
  split; [exact Hs|]. intros v Hv. apply HQR, HQ, Hv.
Qed.

Lemma keeps_retry_loop {Env A} (fn : M Env A) (Q : A -> Prop) n a w :
  keeps fn Q ->
  sound_trace (trace w) ->
  sound_trace (trace (snd (fst (retry_loop n a fn w)))) /\
  (forall v, fst (fst (retry_loop n a fn w)) = Ok v -> Q v).
Proof.
  intros Hfn. revert a w; induction n as [|n IH]; intros a w Hw; simpl;
    destruct (Hfn w Hw) as [Hs HQ];
    destruct (fn w) as [[v|e] w1]; simpl in *;
    try (split; [exact Hs|intros v' H; inversion H; subst; now apply HQ]);
    destruct (isinstance_Exception e); simpl;
    try (split; [exact Hs|intros v' H; discriminate]).
  apply IH. apply sound_trace_log; [exact Hs|constructor].
Qed.

Lemma keeps_retry {Env A} (fn : M Env A) (Q : A -> Prop) :
  keeps fn Q -> keeps (retry fn) Q.
Proof.
  intros Hfn w Hw. unfold retry, retry_statistics.
  now apply keeps_retry_loop.
Qed.

Lemma keeps_print {Env} (m : message) :
  keeps (@print Env m) (fun _ => True).
Proof.
  intros w Hw. split; [|auto].
  apply sound_trace_log; [exact Hw|constructor].
Qed.

Lemma keeps_remote {Env A} (c : call) (oracle : Env -> result A * Env) :
  Forall sound_batch (emissions [Remote c]) ->
  keeps (remote c oracle) (fun _ => True).
Proof.
  intros Hc w Hw. split; [|auto]. unfold remote.
  destruct (oracle (cloud w)) as [r env']. simpl.
  unfold sound_trace. rewrite emissions_app. apply Forall_app. now split.
Qed.

Lemma keeps_for_each {Env X} (body : X -> M Env unit) xs :
  (forall x, keeps (body x) (fun _ => True)) ->
  keeps (for_each xs body) (fun _ => True).
Proof.
  intros Hbody. induction xs as [|x xs IH]; simpl.
  - now apply keeps_ret.
  - eapply keeps_bind; [apply Hbody|]. intros _ _. exact IH.
Qed.

Lemma keeps_index {Env} parts i :
  keeps (@index Env parts i) (fun _ => True).
Proof.
  intros w Hw. unfold index.
  destruct (nth_error parts i); simpl; auto.
Qed.

Lemma keeps_MetricClient {Env} (license_key : option string) :
  keeps (@MetricClient Env license_key) (fun _ => True).
Proof.
  intros w Hw. unfold MetricClient.
  destruct license_key as [[|c k]|]; simpl; auto.
Qed.

Lemma keeps_count {Env} (sdk : Clients Env) url :
  keeps (get_instance_group_node_count sdk url) (fun _ => True).
Proof.
  apply keeps_retry. unfold get_instance_group_node_count_body.
  eapply keeps_bind; [apply keeps_index|]. intros project _.
  eapply keeps_bind; [apply keeps_index|]. intros zone _.
  eapply keeps_bind; [apply keeps_index|]. intros group _.
  eapply keeps_bind; [apply keeps_remote; constructor|]. intros response _.
  now apply keeps_ret.
Qed.

Lemma keeps_sum {Env} (sdk : Clients Env) urls acc :
  keeps (sum_node_counts sdk urls acc) (fun _ => True).
Proof.
  revert acc; induction urls as [|url urls IH]; intros acc; simpl.
  - now apply keeps_ret.
  - eapply keeps_bind; [apply keeps_count|]. intros n _. apply IH.
Qed.

Lemma keeps_info {Env} (sdk : Clients Env)
  project_id region cluster node_pool_name :
  keeps (get_node_pool_info sdk project_id region cluster node_pool_name)
    consistent.
Proof.
  apply keeps_retry. unfold get_node_pool_info_body.
  eapply keeps_bind; [apply keeps_remote; constructor|]. intros pool _.
  eapply keeps_bind; [apply keeps_sum|]. intros current _.
  eapply keeps_bind with
    (Q := fun usage =>
            usage = if autoscaling_max_node_count pool =? 0 then PyInt 0
                    else PyFloat (inject_Z current
                                  / inject_Z (autoscaling_max_node_count pool)
                                  * inject_Z 100)%Q).
  - intros w Hw. rewrite usage_percent_ok. simpl. split; [exact Hw|].
    intros v H. now inversion H.
  - intros usage ->. apply keeps_ret. reflexivity.
Qed.

Lemma keeps_send {Env} (sdk : Clients Env) client
  project_id region cluster node_pool_name info :
  consistent info ->
  keeps (send_metrics_to_newrelic sdk client project_id region cluster
           node_pool_name info) (fun _ => True).
Proof.
  intros Hinfo. apply keeps_retry. unfold send_metrics_to_newrelic_body.
  eapply keeps_bind.
  { apply keeps_remote. simpl. constructor; [|constructor].
    exists project_id, region, cluster, node_pool_name, info. auto. }
  intros response _.
  eapply keeps_bind with (Q := fun _ => True).
  { intros w Hw. unfold raise_for_status.
    destruct (ok response); simpl; auto. }
  intros _ _. apply keeps_print.
Qed.

Lemma keeps_discovery_loop {Env} (sdk : Clients Env)
  project_id region clusters acc :
  keeps (node_pools_of_clusters sdk project_id region clusters acc)
    (fun _ => True).
Proof.
  revert acc; induction clusters as [|c cs IH]; intros acc; simpl.
  - now apply keeps_ret.
  - eapply keeps_bind; [apply keeps_remote; constructor|].
    intros l _. apply IH.
Qed.

Lemma keeps_run {Env} (sdk : Clients Env) environ project_ids region :
  keeps (list_clusters_and_node_pools_info_and_send_metrics sdk environ
           project_ids region) (fun _ => True).
Proof.
  apply keeps_retry.
  unfold list_clusters_and_node_pools_info_and_send_metrics_body.
  eapply keeps_bind; [apply keeps_MetricClient|]. intros metrics_client _.
  apply keeps_for_each. intros project_id. unfold visit_project.
  eapply keeps_bind; [apply keeps_print|]. intros _ _.
  eapply keeps_bind with (Q := fun _ => True).
  { apply keeps_retry. unfold get_all_clusters_and_node_pools_body.
    eapply keeps_bind; [apply keeps_remote; constructor|].
    intros clusters _. apply keeps_discovery_loop. }
  intros mapping _. apply keeps_for_each. intros [cluster node_pools].
  unfold visit_cluster.
  eapply keeps_bind; [apply keeps_print|]. intros _ _.
  apply keeps_for_each. intros node_pool. unfold visit_node_pool.
  eapply keeps_bind; [apply keeps_info|]. intros info Hinfo.
  eapply keeps_bind; [apply keeps_print|]. intros _ _.
  now apply keeps_send.
Qed.

(** X14: whatever the services answer and however often calls fail
    and are retried, every batch that a run, or the program as a whole,
    hands to the endpoint is a complete batch of three gauges built
    from a record that agrees with its own counts: nothing partial and
    no usage that contradicts the node counts sent with it is ever
    emitted. *)
Theorem only_sound_batches_are_sent {Env} (sdk : Clients Env)
  (environ : string -> option string) (project_ids : list string)
  (region : string) (w : World Env) :
  sound_trace (trace w) ->
  sound_trace
    (trace (snd (list_clusters_and_node_pools_info_and_send_metrics sdk
                   environ project_ids region w))) /\
  sound_trace (trace (snd (main sdk environ w))).
Proof.
  intros Hw. split.
  - exact (proj1 (keeps_run sdk environ project_ids region w Hw)).
  - unfold main.
    destruct (getenv_default environ "GCP_PROJECT_IDS" "") as [|c ids].
    + apply sound_trace_log; [exact Hw|constructor].
    + destruct (split "," (String c ids)) as [|p ps].
      * apply sound_trace_log; [exact Hw|constructor].
      * exact (proj1 (keeps_run sdk environ _ _ w Hw)).
Qed.

Lemma only_sound_batches_are_sent_witness :
  let w := Fake.start (Fake.p1 [(Fake.np2_path, repeat Fake.unavailable 5)]) in
  sound_trace
    (trace (snd (list_clusters_and_node_pools_info_and_send_metrics Fake.sdk
                   Fake.environ ["p1"%string] "us-central1" w))).
Proof.
  intros w.
  apply (only_sound_batches_are_sent Fake.sdk Fake.environ ["p1"%string]
           "us-central1" w).
  constructor.
Defined.

(** ** Discovery is retried as a whole *)

Lemma node_pools_of_clusters_raises {Env} (sdk : Clients Env)
  project_id region clusters acc w e wf :
  node_pool_listings sdk project_id region clusters w = (Raise e, wf) ->
  node_pools_of_clusters sdk project_id region clusters acc w = (Raise e, wf).
Proof.
  intros H. rewrite node_pools_of_clusters_listings.
  now apply bind_raise.
Qed.

Lemma node_pools_of_clusters_trace {Env} (sdk : Clients Env)
  project_id region clusters acc w :
  exists evs,
    trace (snd (node_pools_of_clusters sdk project_id region clusters acc w))
    = trace w ++ evs.
Proof.
  revert acc w; induction clusters as [|c cs IH]; intros acc w; simpl.
  - exists []. now rewrite app_nil_r.
  - unfold bind, remote.
    destruct (list_node_pools sdk _ (cloud w)) as [[l|e] env']; simpl.
    + match goal with
      | |- context [node_pools_of_clusters sdk project_id region cs ?a ?w1] =>
          destruct (IH a w1) as (evs & Hevs)
      end.
      rewrite Hevs. simpl. rewrite <- app_assoc. eexists. reflexivity.
    + eexists. reflexivity.
Qed.

(** X15: the discovery is retried as a whole.  When the node-pool
    listing of some cluster raises, the attempt raises with it and no
    partial mapping is returned; the decorated call then sleeps and
    makes a new attempt, and every attempt starts by listing the
    clusters again. *)
Theorem discovery_restarts_from_the_cluster_list {Env} (sdk : Clients Env)
  project_id region w clusters env1 e wf :
  let parent := ("projects/" ++ project_id ++ "/locations/" ++ region)%string in
  let attempt := get_all_clusters_and_node_pools_body sdk project_id region in
  list_clusters sdk parent (cloud w) = (Ok clusters, env1) ->
  node_pool_listings sdk project_id region clusters
    (mkWorld env1 (trace w ++ [Remote (ListClusters parent)]))
    = (Raise e, wf) ->
  isinstance_Exception e = true ->
  attempt w = (Raise e, wf) /\
  get_all_clusters_and_node_pools sdk project_id region w
    = fst (retry_loop 3 2 attempt (sleep RETRY_WAIT wf)) /\
  (forall w0, exists evs,
      trace (snd (attempt w0))
      = trace w0 ++ Remote (ListClusters parent) :: evs).
Proof.
  intros parent attempt Hclusters Hlistings He.
  assert (Hattempt : attempt w = (Raise e, wf)).
  { unfold attempt, get_all_clusters_and_node_pools_body. fold parent.
    rewrite (bind_ok _ _ _ _ _ (remote_ok _ _ _ _ _ Hclusters)).
    now apply node_pools_of_clusters_raises. }
  split; [exact Hattempt|]. split.
  - unfold get_all_clusters_and_node_pools, retry. fold attempt.
    now rewrite (retry_first_failure attempt w e wf Hattempt He).
  - intros w0. unfold attempt, get_all_clusters_and_node_pools_body.
    fold parent. unfold bind at 1. unfold remote at 1.
    destruct (list_clusters sdk parent (cloud w0)) as [[cs|e0] env0]; simpl.
    + destruct (node_pools_of_clusters_trace sdk project_id region cs []
                  (mkWorld env0 (trace w0 ++ [Remote (ListClusters parent)])))
        as (evs & Hevs).
      rewrite Hevs. simpl. rewrite <- app_assoc. exists evs. reflexivity.
    + exists []. reflexivity.
Qed.

Lemma discovery_restarts_from_the_cluster_list_witness :
  let w :=
    Fake.start
      (Fake.p1 [("projects/p1/locations/us-central1/clusters/c1",
                 [Fake.unavailable])]) in
  exists wf,
    get_all_clusters_and_node_pools_body Fake.sdk "p1" "us-central1" w
      = (Raise Fake.unavailable, wf) /\
    remote_calls
      (trace (snd (get_all_clusters_and_node_pools Fake.sdk "p1"
                     "us-central1" w)))
    = [ListClusters "projects/p1/locations/us-central1";
       ListNodePools "projects/p1/locations/us-central1/clusters/c1";
       ListClusters "projects/p1/locations/us-central1";
       ListNodePools "projects/p1/locations/us-central1/clusters/c1"].
Proof.
  intros w. eexists.
  destruct (discovery_restarts_from_the_cluster_list Fake.sdk "p1"
              "us-central1" w [ {| cluster_name := "c1" |} ] (cloud w)
              Fake.unavailable _ eq_refl eq_refl eq_refl)
    as (Hattempt & Hrun & _).
  split; [exact Hattempt|]. rewrite Hrun. reflexivity.
Defined.

(** ** A run without an API key *)

Lemma main_with_project_ids {Env} (sdk : Clients Env)
  (environ : string -> option string) ids (w : World Env) :
  environ "GCP_PROJECT_IDS"%string = Some ids -> ids <> ""%string ->
  main sdk environ w
  = list_clusters_and_node_pools_info_and_send_metrics sdk environ
      (split "," ids) (getenv_default environ "GCP_REGION" "us-central1") w.
Proof.
  intros Hids Hne. unfold main, getenv_default. rewrite Hids.
  destruct ids as [|c ids]; [congruence|].
  destruct (split "," (String c ids)) as [|p ps] eqn:Hs; [|reflexivity].
  apply (f_equal (@List.length string)) in Hs. unfold split in Hs.
  rewrite split_from_length in Hs. discriminate.
Qed.

Lemma run_without_key {Env} (sdk : Clients Env)
  (environ : string -> option string) project_ids region (w : World Env) :
  environ "NEW_RELIC_API_KEY"%string = None \/
  environ "NEW_RELIC_API_KEY"%string = Some ""%string ->
  list_clusters_and_node_pools_info_and_send_metrics sdk environ
    project_ids region w
  = (Raise (RetryError ValueError),
     mkWorld (cloud w) (trace w ++ [Sleep 2; Sleep 2; Sleep 2; Sleep 2])).
Proof.
  intros Hkey.
  apply (retry_always_fails
           (list_clusters_and_node_pools_info_and_send_metrics_body sdk
              environ project_ids region) ValueError [] eq_refl).
  intros [c t]. rewrite pass_without_key by exact Hkey.
  simpl. now rewrite app_nil_r.
Qed.

(** X16: when [NEW_RELIC_API_KEY] is missing or empty, every pass of
    the traversal fails at the construction of the metrics client,
    before any call: the run builds the client five times, sleeps four
    times 2, and raises [RetryError] around the [ValueError]; no remote
    call is made and nothing is printed or emitted, whatever the
    projects are.  The program as a whole ends the same way when
    project ids are configured. *)
Theorem missing_api_key_aborts {Env} (sdk : Clients Env)
  (environ : string -> option string) (project_ids : list string)
  (region : string) (w : World Env) :
  environ "NEW_RELIC_API_KEY"%string = None \/
  environ "NEW_RELIC_API_KEY"%string = Some ""%string ->
  list_clusters_and_node_pools_info_and_send_metrics sdk environ
    project_ids region w
  = (Raise (RetryError ValueError),
     mkWorld (cloud w) (trace w ++ [Sleep 2; Sleep 2; Sleep 2; Sleep 2])) /\
  (forall ids,
      environ "GCP_PROJECT_IDS"%string = Some ids -> ids <> ""%string ->
      main sdk environ w
      = (Raise (RetryError ValueError),
         mkWorld (cloud w) (trace w ++ [Sleep 2; Sleep 2; Sleep 2; Sleep 2]))).
Proof.
  intros Hkey. split; [now apply run_without_key|].
  intros ids Hids Hne.
  rewrite (main_with_project_ids sdk environ ids w Hids Hne).
  now apply run_without_key.
Qed.

Lemma missing_api_key_aborts_witness :
  list_clusters_and_node_pools_info_and_send_metrics Fake.sdk Fake.no_environ
    ["p1"%string] "us-central1" (Fake.start (Fake.p1 []))
  = (Raise (RetryError ValueError),
     mkWorld (Fake.p1 []) [Sleep 2; Sleep 2; Sleep 2; Sleep 2]).
Proof.
  apply (proj1 (missing_api_key_aborts Fake.sdk Fake.no_environ
                  ["p1"%string] "us-central1" (Fake.start (Fake.p1 []))
                  (or_introl eq_refl))).
Defined.
